(** * Slack notifier of Screwdriver: a shallow embedding of [index.js]

    The module under study validates a build event with Joi, normalizes
    the [settings.slack] value of the event in place, filters on the
    build status, renders a Slack message and hands it to the transport
    ([slacker]).

    Modelling conventions.
    - JavaScript values are JSON-like trees ([value]).  Objects are
      association lists in insertion order; a key is looked up at its
      first binding.  Numbers are the integer-valued ones (the only
      number of the contract is [build.id]); one character of a Rocq
      string stands for one UTF-16 code unit.
    - A JavaScript computation either completes normally, throws, or
      leaves the fragment of the language that is modelled
      ([Unsupported]: string conversion of arrays and objects, numeric
      coercion of strings).
    - [_notify] mutates the object it receives.  The caller's object is
      the state of a small state-and-exception monad, next to the log
      of the calls made to the transport.
    - Joi is modelled as a schema datatype with an interpreter.  Joi's
      optional coercions of strings into other types ([convert]) are
      left out: a value is checked at the type it has. *)

From Stdlib Require Import String Ascii List ZArith Bool Lia.
Import ListNotations.
Open Scope string_scope.

Set Warnings "-register-all".

(** ** JavaScript values *)

Inductive value : Type :=
| VUndefined
| VNull
| VBool (b : bool)
| VNum (n : Z)
| VStr (s : string)
| VArr (items : list value)
| VObj (props : list (string * value)).

Inductive error : Type :=
| TypeError (property : string)
| ValidationError (message : string)
| TransportError (message : string).

Inductive result (A : Type) : Type :=
| Normal (a : A)
| Throw (e : error)
| Unsupported.

Arguments Normal {A} a.
Arguments Throw {A} e.
Arguments Unsupported {A}.

Module Js.

(** Own property of an object; [undefined] when the key is absent. *)
Fixpoint lookup (k : string) (ps : list (string * value)) : value :=
  match ps with
  | [] => VUndefined
  | (k', v) :: rest => if String.eqb k k' then v else lookup k rest
  end.

(** [o[k] = v] on the property list: an existing key keeps its place,
    a new key goes last. *)
Fixpoint store (k : string) (v : value) (ps : list (string * value))
  : list (string * value) :=
  match ps with
  | [] => [(k, v)]
  | (k', v') :: rest =>
      if String.eqb k k' then (k, v) :: rest else (k', v') :: store k v rest
  end.

Definition is_undefined (v : value) : bool :=
  match v with VUndefined => true | _ => false end.

(** [typeof v === 'string'] *)
Definition is_string (v : value) : bool :=
  match v with VStr _ => true | _ => false end.

(** [Array.isArray(v)] *)
Definition is_array (v : value) : bool :=
  match v with VArr _ => true | _ => false end.

(** Truthiness, as the conditional operator tests it. *)
Definition truthy (v : value) : bool :=
  match v with
  | VUndefined | VNull => false
  | VBool b => b
  | VNum n => negb (n =? 0)%Z
  | VStr s => negb (s =? "")
  | VArr _ | VObj _ => true
  end.

(** [v.k] for the data properties the program reads and for [length].
    Reading a property of [undefined] or [null] throws. *)
Definition get (v : value) (k : string) : result value :=
  match v with
  | VUndefined | VNull => Throw (TypeError k)
  | VObj ps => Normal (lookup k ps)
  | VStr s =>
      if k =? "length" then Normal (VNum (Z.of_nat (String.length s)))
      else Normal VUndefined
  | VArr l =>
      if k =? "length" then Normal (VNum (Z.of_nat (List.length l)))
      else Normal VUndefined
  | VBool _ | VNum _ => Normal VUndefined
  end.

(** [o.k = v] in strict mode: throws on [undefined], [null] and on
    primitives.  Named properties of arrays are not modelled. *)
Definition set_prop (o : value) (k : string) (v : value) : result value :=
  match o with
  | VObj ps => Normal (VObj (store k v ps))
  | VArr _ => Unsupported
  | _ => Throw (TypeError k)
  end.

(** [root.p1.....pn]: the value reached from [root]. *)
Fixpoint at_path (root : value) (path : list string) : result value :=
  match path with
  | [] => Normal root
  | p :: rest =>
      match get root p with
      | Normal child => at_path child rest
      | Throw e => Throw e
      | Unsupported => Unsupported
      end
  end.

(** [root.p1.....pn.k = v]: the tree after the assignment. *)
Fixpoint assign_in (root : value) (path : list string) (k : string)
         (v : value) : result value :=
  match path with
  | [] => set_prop root k v
  | p :: rest =>
      match get root p with
      | Normal child =>
          match assign_in child rest k v with
          | Normal child' =>
              match root with
              | VObj ps => Normal (VObj (store p child' ps))
              | _ => Unsupported
              end
          | Throw e => Throw e
          | Unsupported => Unsupported
          end
      | Throw e => Throw e
      | Unsupported => Unsupported
      end
  end.

(** [Object.keys(v).length] *)
Definition keys_length (v : value) : result nat :=
  match v with
  | VUndefined | VNull => Throw (TypeError "keys")
  | VObj ps => Normal (List.length ps)
  | VArr l => Normal (List.length l)
  | VStr s => Normal (String.length s)
  | VBool _ | VNum _ => Normal 0
  end.

Definition is_safe_integer (n : Z) : bool :=
  ((- (2 ^ 53 - 1) <=? n) && (n <=? 2 ^ 53 - 1))%Z.

(** Decimal digits of a non-negative integer, least significant digit
    first into the accumulator.  The fuel bounds the number of digits
    by the number of bits. *)
Definition digit (d : Z) : ascii := ascii_of_nat (48 + Z.to_nat d).

Fixpoint digits_fuel (fuel : nat) (n : Z) (acc : string) : string :=
  match fuel with
  | O => acc
  | S fuel' =>
      let acc' := String (digit (n mod 10)) acc in
      if (n / 10 =? 0)%Z then acc' else digits_fuel fuel' (n / 10) acc'
  end.

Definition decimal (n : Z) : string :=
  let m := Z.abs n in
  let body := digits_fuel (S (Z.to_nat (Z.log2 m))) m "" in
  if (n <? 0)%Z then String "-" body else body.

(** String conversion, as a template literal applies it.  Primitives
    only; a number outside the exactly represented range, an array or
    an object is outside the modelled fragment. *)
Definition toString (v : value) : result string :=
  match v with
  | VUndefined => Normal "undefined"
  | VNull => Normal "null"
  | VBool true => Normal "true"
  | VBool false => Normal "false"
  | VNum n => if is_safe_integer n then Normal (decimal n) else Unsupported
  | VStr s => Normal s
  | VArr _ | VObj _ => Unsupported
  end.

(** [o[key]]: the key is converted to a string first. *)
Definition index (o : value) (key : value) : result value :=
  match toString key with
  | Normal k => get o k
  | Throw e => Throw e
  | Unsupported => Unsupported
  end.

(** Equality of a primitive with an array element (SameValueZero);
    an array or an object never equals a primitive. *)
Definition prim_eq (a b : value) : bool :=
  match a, b with
  | VUndefined, VUndefined => true
  | VNull, VNull => true
  | VBool x, VBool y => Bool.eqb x y
  | VNum x, VNum y => (x =? y)%Z
  | VStr x, VStr y => (x =? y)
  | _, _ => false
  end.

Fixpoint is_substring (needle hay : string) : bool :=
  String.prefix needle hay
  || match hay with
     | EmptyString => false
     | String _ rest => is_substring needle rest
     end.

(** [recv.includes(x)]: arrays compare elements, strings search a
    substring, anything else has no such method. *)
Definition includes (recv : value) (x : value) : result bool :=
  match recv with
  | VArr l =>
      match x with
      | VArr _ | VObj _ => Unsupported
      | _ => Normal (existsb (prim_eq x) l)
      end
  | VStr s =>
      match toString x with
      | Normal n => Normal (is_substring n s)
      | Throw e => Throw e
      | Unsupported => Unsupported
      end
  | _ => Throw (TypeError "includes")
  end.

(** [s.split(sep)] for a non-empty separator.  [skip] counts the
    characters of a separator still to be passed over, [cur] is the
    piece being read. *)
Fixpoint split_go (sep : string) (skip : nat) (cur : string) (s : string)
  : list string :=
  match s with
  | EmptyString => [cur]
  | String c rest =>
      match skip with
      | S k => split_go sep k cur rest
      | O =>
          if String.prefix sep s
          then cur :: split_go sep (String.length sep - 1) "" rest
          else split_go sep 0 (cur ++ String c "") rest
      end
  end.

Definition split_string (sep s : string) : list string :=
  split_go sep 0 "" s.

(** [recv.split(sep)] *)
Definition split (recv : value) (sep : string) : result (list string) :=
  match recv with
  | VStr s => Normal (split_string sep s)
  | _ => Throw (TypeError "split")
  end.

(** [recv.slice(0, n)] *)
Definition slice0 (recv : value) (n : nat) : result value :=
  match recv with
  | VStr s => Normal (VStr (String.substring 0 n s))
  | VArr l => Normal (VArr (firstn n l))
  | _ => Throw (TypeError "slice")
  end.

(** [recv.substring(0, n)] *)
Definition substring0 (recv : value) (n : nat) : result string :=
  match recv with
  | VStr s => Normal (String.substring 0 n s)
  | _ => Throw (TypeError "substring")
  end.

(** [v > n].  [undefined], [null] and booleans never exceed a positive
    bound; the numeric reading of a string or an array is outside the
    modelled fragment; a plain object converts to NaN. *)
Definition greater (v : value) (n : Z) : result bool :=
  match v with
  | VNum x => Normal (n <? x)%Z
  | VUndefined | VNull | VBool _ => Normal false
  | VObj ps =>
      match lookup "toString" ps, lookup "valueOf" ps with
      | VUndefined, VUndefined => Normal false
      | _, _ => Unsupported
      end
  | VStr _ | VArr _ => Unsupported
  end.

End Js.

(** ** Joi: schemas and their validation *)

Module Joi.

(** The schema constructors the program uses.  [SRequired] is the
    presence flag set by [.required()]; [SString (Some l)] is
    [Joi.string().valid(l)]; [SObject None _] is [Joi.object()]
    without declared keys, which takes any object; once keys are
    declared, other keys are refused unless [.unknown(true)] was
    called. *)
Inductive schema : Type :=
| SString (allowed : option (list string))
| SNumber (integer : bool)
| SBoolean
| SArray (item : schema) (min : nat)
| SObject (children : option (list (string * schema))) (unknown : bool)
| SAlternatives (alts : list schema)
| SRequired (s : schema).

Definition is_required (s : schema) : bool :=
  match s with SRequired _ => true | _ => false end.

(** Validation of a value that is present, at the type the value has.
    Joi's default [convert] mode is not part of it: where an object or
    a list is expected Joi also takes a string that holds its JSON
    text, where a number is expected a numeric string, where a boolean
    is expected the strings "true" and "false".  What [check] accepts,
    Joi accepts; a string in such a place is refused here.
    - a string must be non-empty, or one of the allowed values;
    - an array has at least [min] items, none of them [undefined],
      each matching the item schema, and a required item schema asks
      for at least one item;
    - an object has every declared key absent-and-optional or
      matching, and no undeclared key unless [unknown] is set;
    - alternatives accept what one of them accepts;
    - [null] matches nothing. *)
Fixpoint check (s : schema) (v : value) {struct s} : bool :=
  match s with
  | SRequired s' => check s' v
  | SString None =>
      match v with VStr x => negb (x =? "") | _ => false end
  | SString (Some l) =>
      match v with VStr x => existsb (String.eqb x) l | _ => false end
  | SNumber integer =>
      match v with
      | VNum n => if integer then Js.is_safe_integer n else true
      | _ => false
      end
  | SBoolean =>
      match v with VBool _ => true | _ => false end
  | SArray item min =>
      match v with
      | VArr l =>
          (min <=? List.length l)%nat
          && forallb (fun x => negb (Js.is_undefined x) && check item x) l
          && (if is_required item then negb (List.length l =? 0)%nat else true)
      | _ => false
      end
  | SObject None _ =>
      match v with VObj _ => true | _ => false end
  | SObject (Some children) unknown =>
      match v with
      | VObj ps =>
          (fix each (cs : list (string * schema)) : bool :=
             match cs with
             | [] => true
             | (k, c) :: rest =>
                 (match Js.lookup k ps with
                  | VUndefined => negb (is_required c)
                  | x => check c x
                  end) && each rest
             end) children
          && (unknown
              || forallb (fun kv => existsb (String.eqb (fst kv))
                                            (map fst children)) ps)
      | _ => false
      end
  | SAlternatives alts => existsb (fun a => check a v) alts
  end.

(** Validation of a value that may be absent. *)
Definition validate (s : schema) (v : value) : bool :=
  match v with
  | VUndefined => negb (is_required s)
  | _ => check s v
  end.

(** [Joi.attempt(v, s, message)]: the value, or a thrown error. *)
Definition attempt (v : value) (s : schema) (message : string)
  : result value :=
  if validate s v then Normal v else Throw (ValidationError message).

(** Builders named after the Joi calls of the source. *)
Definition string_ : schema := SString None.
Definition valid (l : list string) (s : schema) : schema :=
  match s with SString _ => SString (Some l) | _ => s end.
Definition required (s : schema) : schema := SRequired s.
Definition array_items (item : schema) (min : nat) : schema := SArray item min.
Definition object_ : schema := SObject None false.
Definition boolean : schema := SBoolean.
Definition number_integer : schema := SNumber true.
Definition alternatives_try (alts : list schema) : schema :=
  SAlternatives alts.
Definition keys (children : list (string * schema)) (s : schema) : schema :=
  match s with SObject _ u => SObject (Some children) u | _ => s end.
Definition unknown (allow : bool) (s : schema) : schema :=
  match s with SObject c _ => SObject c allow | _ => s end.

End Joi.

(** ** The state-and-exception monad of one call *)

(** One call of the transport: [slacker(token, channels, payload)]. *)
Record call : Type := mkCall {
  call_token : value;
  call_channels : value;
  call_payload : value
}.

(** What a call of [_notify] can change: the object the caller passed,
    and the calls received by the transport so far. *)
Record heap : Type := mkHeap {
  buildData : value;
  calls : list call
}.

Definition M (A : Type) : Type := heap -> heap * result A.

Definition ret {A : Type} (a : A) : M A := fun h => (h, Normal a).

Definition bind {A B : Type} (m : M A) (f : A -> M B) : M B :=
  fun h =>
    match m h with
    | (h', Normal a) => f a h'
    | (h', Throw e) => (h', Throw e)
    | (h', Unsupported) => (h', Unsupported)
    end.

Declare Scope js_scope.
Delimit Scope js_scope with js.
Notation "x <- m ;; k" := (bind m (fun x => k))
  (at level 100, m at next level, right associativity) : js_scope.
Notation "m ;;; k" := (bind m (fun _ => k))
  (at level 100, right associativity) : js_scope.
Open Scope js_scope.

(** A pure JavaScript operation inside the monad. *)
Definition lift {A : Type} (r : result A) : M A := fun h => (h, r).

(** [buildData.p1.....pn] *)
Definition read (path : list string) : M value :=
  fun h => (h, Js.at_path (buildData h) path).

(** [buildData.p1.....pn.k = v] *)
Definition assign (path : list string) (k : string) (v : value) : M unit :=
  fun h =>
    match Js.assign_in (buildData h) path k v with
    | Normal bd' => (mkHeap bd' (calls h), Normal tt)
    | Throw e => (h, Throw e)
    | Unsupported => (h, Unsupported)
    end.

(** [`${e}`]: evaluate, then convert to a string. *)
Definition str (m : M value) : M string :=
  v <- m ;; lift (Js.toString v).

(** ** The constants of the module *)

Definition COLOR_MAP : value :=
  VObj [("SUCCESS", VStr "good");
        ("FAILURE", VStr "danger");
        ("ABORTED", VStr "danger");
        ("RUNNING", VStr "#0F69FF");
        ("QUEUED", VStr "#0F69FF")].

Definition STATUSES_MAP : value :=
  VObj [("SUCCESS", VStr ":sunny:");
        ("FAILURE", VStr ":umbrella:");
        ("ABORTED", VStr ":cloud:");
        ("RUNNING", VStr ":runner:");
        ("QUEUED", VStr ":cyclone:")].

Definition DEFAULT_STATUSES : value := VArr [VStr "FAILURE"].

(** [Object.keys(o)] of an object literal. *)
Definition Object_keys (o : value) : list string :=
  match o with VObj ps => map fst ps | _ => [] end.

Definition SCHEMA_STATUS : Joi.schema :=
  Joi.valid (Object_keys COLOR_MAP) Joi.string_.

Definition SCHEMA_STATUSES : Joi.schema :=
  Joi.array_items SCHEMA_STATUS 0.

Definition SCHEMA_SLACK_CHANNEL : Joi.schema :=
  Joi.required Joi.string_.

Definition SCHEMA_SLACK_CHANNELS : Joi.schema :=
  Joi.array_items SCHEMA_SLACK_CHANNEL 1.

Definition SCHEMA_SLACK_SETTINGS : Joi.schema :=
  Joi.unknown true
    (Joi.keys
       [("slack",
         Joi.required
           (Joi.alternatives_try
              [Joi.keys [("channels", SCHEMA_SLACK_CHANNELS);
                         ("statuses", SCHEMA_STATUSES);
                         ("minimized", Joi.boolean)]
                        Joi.object_;
               SCHEMA_SLACK_CHANNELS;
               SCHEMA_SLACK_CHANNEL]))]
       Joi.object_).

Definition SCHEMA_SCM_REPO : Joi.schema :=
  Joi.unknown true
    (Joi.keys [("name", Joi.required Joi.string_)] Joi.object_).

Definition SCHEMA_PIPELINE_DATA : Joi.schema :=
  Joi.unknown true
    (Joi.keys [("scmRepo", Joi.required SCHEMA_SCM_REPO)]
              Joi.object_).

Definition SCHEMA_BUILD_DATA : Joi.schema :=
  Joi.keys
    [("settings", Joi.required SCHEMA_SLACK_SETTINGS);
     ("status", Joi.required SCHEMA_STATUS);
     ("pipeline", Joi.required SCHEMA_PIPELINE_DATA);
     ("jobName", Joi.string_);
     ("build",
      Joi.unknown true
        (Joi.keys [("id", Joi.required Joi.number_integer)]
                  Joi.object_));
     ("event", Joi.object_);
     ("buildLink", Joi.string_)]
    Joi.object_.

Definition SCHEMA_SLACK_CONFIG : Joi.schema :=
  Joi.keys [("token", Joi.required Joi.string_)] Joi.object_.

Definition newline : string := String (ascii_of_nat 10) "".

(** ** The notifier *)

Section Notifier.

(** The transport, [require('./slack')]: it returns ([None]) or throws
    ([Some message]).  It is given the token, the channels and the
    message, and is taken not to write to the build event. *)
Variable slacker : value -> value -> value -> option string.

(** [this.config], as the constructor stored it. *)
Variable config : value.

(** [slacker(token, channels, slackMessage)] *)
Definition call_slacker (token channels slackMessage : value) : M unit :=
  fun h =>
    let h' := mkHeap (buildData h)
                     (calls h ++ [mkCall token channels slackMessage]) in
    match slacker token channels slackMessage with
    | None => (h', Normal tt)
    | Some message => (h', Throw (TransportError message))
    end.

(** Lines 93-106: [settings.slack] is brought to its canonical form,
    in place. *)
Definition normalize : M unit :=
  slack <- read ["settings"; "slack"] ;;
  (if Js.is_string slack || Js.is_array slack then
     (raw <- read ["settings"; "slack"] ;;
      assign ["settings"] "slack"
             (if Js.is_string raw then VArr [raw] else raw) ;;;
      channels <- read ["settings"; "slack"] ;;
      assign ["settings"] "slack"
             (VObj [("channels", channels);
                    ("statuses", DEFAULT_STATUSES);
                    ("minimized", VBool false)]))
   else ret tt) ;;;
  statuses <- read ["settings"; "slack"; "statuses"] ;;
  if Js.is_undefined statuses
  then assign ["settings"; "slack"] "statuses" DEFAULT_STATUSES
  else ret tt.

(** Line 111: [buildData.buildLink.split('/builds')[0]] *)
Definition pipelineLink : M value :=
  buildLink <- read ["buildLink"] ;;
  parts <- lift (Js.split buildLink "/builds") ;;
  ret (match parts with p :: _ => VStr p | [] => VUndefined end).

(** Line 112: [buildData.event.sha.slice(0, 6)] *)
Definition truncatedSha : M value :=
  sha <- read ["event"; "sha"] ;;
  lift (Js.slice0 sha 6).

Definition cutOff : nat := 150.

(** Lines 114-116: the commit message, cut after [cutOff] characters. *)
Definition commitMessage : M value :=
  message <- read ["event"; "commit"; "message"] ;;
  len <- lift (Js.get message "length") ;;
  over <- lift (Js.greater len (Z.of_nat cutOff)) ;;
  if over : bool then
    (head <- (m <- read ["event"; "commit"; "message"] ;;
              lift (Js.substring0 m cutOff)) ;;
     ret (VStr (head ++ "...")))
  else read ["event"; "commit"; "message"].

(** [COLOR_MAP[buildData.status]] and [STATUSES_MAP[buildData.status]] *)
Definition by_status (table : value) : M value :=
  status <- read ["status"] ;;
  lift (Js.index table status).

(** Lines 111-151: the message object handed to the transport. *)
Definition render : M value :=
  pipelineLink <- pipelineLink ;;
  truncatedSha <- truncatedSha ;;
  commitMessage <- commitMessage ;;
  isMinimized <- read ["settings"; "slack"; "minimized"] ;;
  message <-
    (if Js.truthy isMinimized then
       (link <- str (ret pipelineLink) ;;
        name <- str (read ["pipeline"; "scmRepo"; "name"]) ;;
        job <- str (read ["jobName"]) ;;
        status <- str (read ["status"]) ;;
        ret ("<" ++ link ++ "|" ++ name ++ "#" ++ job ++ "> *"
                 ++ status ++ "*"))
     else
       (status <- str (read ["status"]) ;;
        emoji <- str (by_status STATUSES_MAP) ;;
        link <- str (ret pipelineLink) ;;
        name <- str (read ["pipeline"; "scmRepo"; "name"]) ;;
        job <- str (read ["jobName"]) ;;
        ret ("*" ++ status ++ "* " ++ emoji ++ " <" ++ link ++ "|"
                 ++ name ++ " " ++ job ++ ">"))) ;;
  attachments <-
    (if Js.truthy isMinimized then
       (color <- by_status COLOR_MAP ;;
        buildLink <- str (read ["buildLink"]) ;;
        id <- str (read ["build"; "id"]) ;;
        ret (VArr
               [VObj [("fallback", VStr "");
                      ("color", color);
                      ("fields",
                       VArr [VObj [("title", VStr "Build");
                                   ("value",
                                    VStr ("<" ++ buildLink ++ "|#" ++ id
                                              ++ ">"));
                                   ("short", VBool true)]])]]))
     else
       (color <- by_status COLOR_MAP ;;
        id <- str (read ["build"; "id"]) ;;
        buildLink <- str (read ["buildLink"]) ;;
        body <- str (ret commitMessage) ;;
        url <- str (read ["event"; "commit"; "url"]) ;;
        sha <- str (ret truncatedSha) ;;
        cause <- str (read ["event"; "causeMessage"]) ;;
        ret (VArr
               [VObj [("fallback", VStr "");
                      ("color", color);
                      ("title", VStr ("#" ++ id));
                      ("title_link", VStr buildLink);
                      ("text",
                       VStr ((body ++ " (<" ++ url ++ "|" ++ sha ++ ">)")
                               ++ (newline ++ cause)))]]))) ;;
  ret (VObj [("message", VStr message); ("attachments", attachments)]).

(** Lines 148-153: render, then one call of the transport. *)
Definition dispatch : M unit :=
  slackMessage <- render ;;
  token <- lift (Js.get config "token") ;;
  channels <- read ["settings"; "slack"; "channels"] ;;
  call_slacker token channels slackMessage.

(** Lines 108-153: the status filter and what follows it. *)
Definition filter_and_dispatch : M unit :=
  statuses <- read ["settings"; "slack"; "statuses"] ;;
  status <- read ["status"] ;;
  listed <- lift (Js.includes statuses status) ;;
  if negb listed then ret tt else dispatch.

(** Lines 83-154.  The [catch] clause returns on any error of
    [Joi.attempt]. *)
Definition _notify : M unit :=
  data <- read [] ;;
  match Joi.attempt data SCHEMA_BUILD_DATA "Invalid build data format" with
  | Normal _ =>
      settings <- read ["settings"] ;;
      count <- lift (Js.keys_length settings) ;;
      if (count =? 0)%nat then ret tt
      else (normalize ;;; filter_and_dispatch)
  | _ => ret tt
  end.

(** [notifier._notify(data)] on a caller's object, with a transport
    that has received nothing yet. *)
Definition run (data : value) : heap * result unit :=
  _notify (mkHeap data []).

End Notifier.

(** [new SlackNotifier(config)]: the configuration is validated and
    kept. *)
Definition SlackNotifier (config : value) : result value :=
  Joi.attempt config SCHEMA_SLACK_CONFIG "Invalid config for slack notifications".

(** ** The canonical settings, by cases *)

(** The result of the config normalizer as section 4.1 of the
    specification words it: a string or a list becomes
    [{channels, statuses: DEFAULT_STATUSES, minimized: false}], a
    structured object gets [DEFAULT_STATUSES] when it has no statuses.
    [normalize_spec] below relates the program to it. *)
Definition canonical_settings (slack : value) : value :=
  match slack with
  | VStr s =>
      VObj [("channels", VArr [VStr s]);
            ("statuses", DEFAULT_STATUSES);
            ("minimized", VBool false)]
  | VArr l =>
      VObj [("channels", VArr l);
            ("statuses", DEFAULT_STATUSES);
            ("minimized", VBool false)]
  | VObj ps =>
      if Js.is_undefined (Js.lookup "statuses" ps)
      then VObj (Js.store "statuses" DEFAULT_STATUSES ps)
      else slack
  | other => other
  end.

(** The three shapes the schema lets through under [slack]; a
    structured object carries a list of statuses or none. *)
Definition legal_shape (slack : value) : Prop :=
  match slack with
  | VStr _ | VArr _ => True
  | VObj ps =>
      match Js.lookup "statuses" ps with
      | VUndefined | VArr _ => True
      | _ => False
      end
  | _ => False
  end.

(** ** Notions used in the statements *)

(** The event after normalization: only [settings.slack] is
    rewritten. *)
Definition normalized (fields sf : list (string * value)) : value :=
  VObj (Js.store "settings"
          (VObj (Js.store "slack"
                   (canonical_settings (Js.lookup "slack" sf)) sf))
          fields).

(** The heap once [settings.slack] of an event has been normalized. *)
Definition after_normalize (data : value) : heap :=
  fst (normalize (mkHeap data [])).

(** [link.split('/builds')[0]] *)
Definition pipeline_of (link : string) : string :=
  hd "" (Js.split_string "/builds" link).

(** The commit message as the attachment shows it. *)
Definition shown_commit (m : string) : string :=
  if (cutOff <? String.length m)%nat
  then String.substring 0 cutOff m ++ "..."
  else m.

(** A computation is [quiet] when it neither writes to the build event
    nor calls the transport. *)
Definition quiet {A : Type} (m : M A) : Prop :=
  forall h, fst (m h) = h.

(** A computation [keeps_event] when it does not write to the build
    event; it may call the transport. *)
Definition keeps_event {A : Type} (m : M A) : Prop :=
  forall h, buildData (fst (m h)) = buildData h.

(** A computation [keeps_calls] when it does not call the transport; it
    may write to the build event. *)
Definition keeps_calls {A : Type} (m : M A) : Prop :=
  forall h, calls (fst (m h)) = calls h.

(** A computation [sends_at_most_once] when it leaves the calls made so
    far in place and adds at most one. *)
Definition sends_at_most_once {A : Type} (m : M A) : Prop :=
  forall h,
    calls (fst (m h)) = calls h
    \/ exists c, calls (fst (m h)) = (calls h ++ [c])%list.

(** The errors of JavaScript itself. *)
Definition type_error (e : error) : Prop :=
  exists property, e = TypeError property.

Definition type_errors {A : Type} (r : result A) : Prop :=
  forall e, r = Throw e -> type_error e.

Definition throws_type_errors {A : Type} (m : M A) : Prop :=
  forall h e, snd (m h) = Throw e -> type_error e.

(** What a call [c] of the transport carries when it was made for the
    heap [h]: normalization returned, and the channels, the token, the
    message and the status are those the code read after it. *)
Definition sent_by (config : value) (h : heap) (c : call) : Prop :=
  exists h1 statuses status,
    normalize h = (h1, Normal tt)
    /\ calls h1 = calls h
    /\ Js.at_path (buildData h1) ["settings"; "slack"; "channels"]
       = Normal (call_channels c)
    /\ Js.get config "token" = Normal (call_token c)
    /\ render h1 = (h1, Normal (call_payload c))
    /\ Js.at_path (buildData h1) ["settings"; "slack"; "statuses"]
       = Normal statuses
    /\ Js.at_path (buildData h1) ["status"] = Normal status
    /\ Js.includes statuses status = Normal true.

(** ** Events used as examples *)

Definition commit_event : value :=
  VObj [("sha", VStr "1234567890abcdeffedcba098765432100000000");
        ("commit",
         VObj [("message", VStr "Fix the build");
               ("url", VStr "https://github.com/screwdriver-cd/ui/commit/12")]);
        ("causeMessage", VStr "Merged by batman")].

Definition pipeline_data : value :=
  VObj [("scmRepo", VObj [("name", VStr "screwdriver-cd/ui")])].

Definition build_link : value :=
  VStr "https://cd.screwdriver.cd/pipelines/12/builds/1234".

(** [settings.slack] is a channel name; every field is there. *)
Definition failure_event : value :=
  VObj [("settings", VObj [("slack", VStr "#general")]);
        ("status", VStr "FAILURE");
        ("pipeline", pipeline_data);
        ("jobName", VStr "publish");
        ("build", VObj [("id", VNum 1234)]);
        ("event", commit_event);
        ("buildLink", build_link)].

(** As [failure_event], without the optional [event]. *)
Definition failure_without_commit : value :=
  VObj [("settings", VObj [("slack", VStr "#general")]);
        ("status", VStr "FAILURE");
        ("pipeline", pipeline_data);
        ("jobName", VStr "publish");
        ("build", VObj [("id", VNum 1234)]);
        ("buildLink", build_link)].

(** As [failure_event], without [buildLink]. *)
Definition failure_without_buildLink : value :=
  VObj [("settings", VObj [("slack", VStr "#general")]);
        ("status", VStr "FAILURE");
        ("pipeline", pipeline_data);
        ("jobName", VStr "publish");
        ("build", VObj [("id", VNum 1234)]);
        ("event", commit_event)].

(** Structured settings in minimized mode, without the optional
    [event]. *)
Definition minimized_without_commit : value :=
  VObj [("settings",
         VObj [("slack",
                VObj [("channels", VArr [VStr "#a"; VStr "#b"]);
                      ("statuses", VArr [VStr "SUCCESS"]);
                      ("minimized", VBool true)])]);
        ("status", VStr "SUCCESS");
        ("pipeline", pipeline_data);
        ("jobName", VStr "publish");
        ("build", VObj [("id", VNum 1234)]);
        ("buildLink", build_link)].

(** Two hundred characters. *)
Definition long_message : string :=
  String.concat "" (List.repeat "abcdefghij" 20).

(** As [failure_event], with a commit message of two hundred
    characters. *)
Definition long_message_event : value :=
  VObj [("settings", VObj [("slack", VStr "#general")]);
        ("status", VStr "FAILURE");
        ("pipeline", pipeline_data);
        ("jobName", VStr "publish");
        ("build", VObj [("id", VNum 1234)]);
        ("event",
         VObj [("sha", VStr "1234567890abcdeffedcba098765432100000000");
               ("commit",
                VObj [("message", VStr long_message);
                      ("url",
                       VStr "https://github.com/screwdriver-cd/ui/commit/12")]);
               ("causeMessage", VStr "Merged by batman")]);
        ("buildLink", build_link)].

(** As [failure_event], while the build is running. *)
Definition running_event : value :=
  VObj [("settings", VObj [("slack", VStr "#general")]);
        ("status", VStr "RUNNING");
        ("pipeline", pipeline_data);
        ("jobName", VStr "publish");
        ("build", VObj [("id", VNum 1234)]);
        ("event", commit_event);
        ("buildLink", build_link)].

(** Structured settings that list no status at all. *)
Definition opted_out_slack : list (string * value) :=
  [("channels", VArr [VStr "#a"]); ("statuses", VArr [])].

Definition opted_out_settings : list (string * value) :=
  [("slack", VObj opted_out_slack)].

Definition opted_out_fields : list (string * value) :=
  [("settings", VObj opted_out_settings);
   ("status", VStr "FAILURE");
   ("pipeline", pipeline_data);
   ("jobName", VStr "publish");
   ("build", VObj [("id", VNum 1234)]);
   ("event", commit_event);
   ("buildLink", build_link)].

(** The fields of [failure_event]. *)
Definition failure_fields : list (string * value) :=
  [("settings", VObj [("slack", VStr "#general")]);
   ("status", VStr "FAILURE");
   ("pipeline", pipeline_data);
   ("jobName", VStr "publish");
   ("build", VObj [("id", VNum 1234)]);
   ("event", commit_event);
   ("buildLink", build_link)].

(** What the transport receives for [failure_event]. *)
Definition failure_payload : value :=
  VObj
    [("message",
      VStr "*FAILURE* :umbrella: <https://cd.screwdriver.cd/pipelines/12|screwdriver-cd/ui publish>");
     ("attachments",
      VArr
        [VObj [("fallback", VStr "");
               ("color", VStr "danger");
               ("title", VStr "#1234");
               ("title_link",
                VStr "https://cd.screwdriver.cd/pipelines/12/builds/1234");
               ("text",
                VStr ("Fix the build (<https://github.com/screwdriver-cd/ui/commit/12|123456>)"
                        ++ newline ++ "Merged by batman"))]])].

Definition failure_call : call :=
  mkCall (VStr "xoxb-token") (VArr [VStr "#general"]) failure_payload.

(** Settings that configure another plugin only. *)
Definition other_plugin_settings : list (string * value) :=
  [("email", VStr "dev@example.com")].

Definition other_plugin_fields : list (string * value) :=
  [("settings", VObj other_plugin_settings);
   ("status", VStr "FAILURE");
   ("pipeline", pipeline_data);
   ("jobName", VStr "publish");
   ("build", VObj [("id", VNum 1234)]);
   ("event", commit_event);
   ("buildLink", build_link)].

(** As [failure_fields], with one more key. *)
Definition fields_with_buildId : list (string * value) :=
  failure_fields ++ [("buildId", VNum 1234)].

(** As [failure_fields], with a status outside [COLOR_MAP]. *)
Definition created_fields : list (string * value) :=
  [("settings", VObj [("slack", VStr "#general")]);
   ("status", VStr "CREATED");
   ("pipeline", pipeline_data);
   ("jobName", VStr "publish");
   ("build", VObj [("id", VNum 1234)]);
   ("event", commit_event);
   ("buildLink", build_link)].

(** Structured settings with [channel] for [channels]. *)
Definition misspelt_slack : list (string * value) :=
  [("channel", VStr "#general")].

Definition misspelt_settings : list (string * value) :=
  [("slack", VObj misspelt_slack)].

Definition misspelt_fields : list (string * value) :=
  [("settings", VObj misspelt_settings);
   ("status", VStr "FAILURE");
   ("pipeline", pipeline_data);
   ("jobName", VStr "publish");
   ("build", VObj [("id", VNum 1234)]);
   ("event", commit_event);
   ("buildLink", build_link)].

(** A pipeline whose repository has no name. *)
Definition nameless_repository : list (string * value) := [].

Definition nameless_pipeline : list (string * value) :=
  [("scmRepo", VObj nameless_repository)].

(** As [failure_fields], with a pipeline that has no repository name. *)
Definition nameless_fields : list (string * value) :=
  [("settings", VObj [("slack", VStr "#general")]);
   ("status", VStr "FAILURE");
   ("pipeline", VObj nameless_pipeline);
   ("jobName", VStr "publish");
   ("build", VObj [("id", VNum 1234)]);
   ("event", commit_event);
   ("buildLink", build_link)].

(** As [failure_event], without [jobName]. *)
Definition failure_without_jobName : value :=
  VObj [("settings", VObj [("slack", VStr "#general")]);
        ("status", VStr "FAILURE");
        ("pipeline", pipeline_data);
        ("build", VObj [("id", VNum 1234)]);
        ("event", commit_event);
        ("buildLink", build_link)].

(** As [failure_event], with a commit that has no [url] and an event
    that has no [causeMessage]. *)
Definition failure_with_bare_commit : value :=
  VObj [("settings", VObj [("slack", VStr "#general")]);
        ("status", VStr "FAILURE");
        ("pipeline", pipeline_data);
        ("jobName", VStr "publish");
        ("build", VObj [("id", VNum 1234)]);
        ("event",
         VObj [("sha", VStr "1234567890abcdeffedcba098765432100000000");
               ("commit", VObj [("message", VStr "Fix the build")])]);
        ("buildLink", build_link)].

(** What rendering returns for [long_message_event]. *)
Definition long_message_payload : value :=
  VObj
    [("message",
      VStr "*FAILURE* :umbrella: <https://cd.screwdriver.cd/pipelines/12|screwdriver-cd/ui publish>");
     ("attachments",
      VArr
        [VObj [("fallback", VStr "");
               ("color", VStr "danger");
               ("title", VStr "#1234");
               ("title_link",
                VStr "https://cd.screwdriver.cd/pipelines/12/builds/1234");
               ("text",
                VStr ((String.concat "" (List.repeat "abcdefghij" 15)
                         ++ "..."
                         ++ " (<https://github.com/screwdriver-cd/ui/commit/12|123456>)")
                        ++ (newline ++ "Merged by batman")))]])].

(** Structured settings in minimized mode, with the commit. *)
Definition minimized_event : value :=
  VObj [("settings",
         VObj [("slack",
                VObj [("channels", VArr [VStr "#a"; VStr "#b"]);
                      ("statuses", VArr [VStr "SUCCESS"]);
                      ("minimized", VBool true)])]);
        ("status", VStr "SUCCESS");
        ("pipeline", pipeline_data);
        ("jobName", VStr "publish");
        ("build", VObj [("id", VNum 1234)]);
        ("event", commit_event);
        ("buildLink", build_link)].

Definition quiet_transport : value -> value -> value -> option string :=
  fun _ _ _ => None.

Definition some_config : value := VObj [("token", VStr "xoxb-token")].

(** ** Property lists *)

Section PropertyLists.

Lemma lookup_store_same (k : string) (v : value) ps :
  Js.lookup k (Js.store k v ps) = v.
Proof.
  induction ps as [| [k' v'] ps IH]; simpl.
  - now rewrite String.eqb_refl.
  - destruct (String.eqb k k') eqn:E; simpl.
    + now rewrite String.eqb_refl.
    + now rewrite E.
Qed.

Lemma lookup_store_other (k k' : string) (v : value) ps :
  k <> k' -> Js.lookup k (Js.store k' v ps) = Js.lookup k ps.
Proof.
  intros Hne. induction ps as [| [k0 v0] ps IH]; simpl.
  - apply String.eqb_neq in Hne. now rewrite Hne.
  - destruct (String.eqb k' k0) eqn:E; simpl.
    + apply String.eqb_eq in E. subst k0.
      apply String.eqb_neq in Hne. now rewrite Hne.
    + destruct (String.eqb k k0); [reflexivity | exact IH].
Qed.

Lemma store_store (k : string) (v v' : value) ps :
  Js.store k v (Js.store k v' ps) = Js.store k v ps.
Proof.
  induction ps as [| [k0 v0] ps IH]; simpl.
  - now rewrite String.eqb_refl.
  - destruct (String.eqb k k0) eqn:E; simpl.
    + now rewrite String.eqb_refl.
    + rewrite E. now f_equal.
Qed.

(** Writing back the value a key already holds changes nothing. *)
Lemma store_lookup_id (k : string) ps :
  Js.lookup k ps <> VUndefined -> Js.store k (Js.lookup k ps) ps = ps.
Proof.
  induction ps as [| [k0 v0] ps IH]; simpl; intros H.
  - contradiction.
  - destruct (String.eqb k k0) eqn:E.
    + apply String.eqb_eq in E. now subst.
    + f_equal. now apply IH.
Qed.

Lemma store_lookup_eq (k : string) (v : value) ps :
  Js.lookup k ps = v -> v <> VUndefined -> Js.store k v ps = ps.
Proof.
  intros <- H. now apply store_lookup_id.
Qed.

End PropertyLists.

(** ** What validation guarantees *)

Section Validation.

Ltac split_andb :=
  repeat match goal with
         | Hx : (_ && _)%bool = true |- _ =>
             let Hy := fresh Hx in
             apply andb_prop in Hx; destruct Hx as [Hx Hy]
         end.

Lemma valid_build_data_inv fields :
  Joi.validate SCHEMA_BUILD_DATA (VObj fields) = true ->
  exists sf st,
    Js.lookup "settings" fields = VObj sf
    /\ legal_shape (Js.lookup "slack" sf)
    /\ Js.lookup "status" fields = VStr st
    /\ In st (Object_keys COLOR_MAP).
Proof.
  intros H. cbn in H. split_andb.
  destruct (Js.lookup "settings" fields) as [| | | | | | sf] eqn:Es;
    try discriminate.
  destruct (Js.lookup "status" fields) as [| | | | st | |] eqn:Est;
    try discriminate.
  exists sf, st. repeat split.
  - unfold legal_shape. split_andb.
    destruct (Js.lookup "slack" sf) as [| | | | s | l | ps] eqn:Esl;
      try discriminate; try exact I.
    rewrite orb_false_r in H. split_andb.
    destruct (Js.lookup "statuses" ps); try exact I; discriminate.
  - cbn.
    repeat match goal with
           | Hx : (_ || _)%bool = true |- _ =>
               apply orb_prop in Hx; destruct Hx as [Hx | Hx]
           | Hx : (_ =? _) = true |- _ => apply String.eqb_eq in Hx; subst
           end; auto 10; discriminate.
Qed.

(** A value that is no object is rejected, except [undefined], which
    the optional top-level schema lets through. *)
Lemma valid_build_data_shape data :
  Joi.validate SCHEMA_BUILD_DATA data = true ->
  data = VUndefined \/ exists fields, data = VObj fields.
Proof.
  destruct data; cbn; intros H; try discriminate; eauto.
Qed.

End Validation.

(** ** Steps that leave the heap alone *)

Section Quiet.

Lemma quiet_ret {A : Type} (a : A) : quiet (ret a).
Proof. intros h. reflexivity. Qed.

Lemma quiet_lift {A : Type} (r : result A) : quiet (lift r).
Proof. intros h. reflexivity. Qed.

Lemma quiet_read path : quiet (read path).
Proof. intros h. reflexivity. Qed.

Lemma quiet_bind {A B : Type} (m : M A) (f : A -> M B) :
  quiet m -> (forall a, quiet (f a)) -> quiet (bind m f).
Proof.
  intros Hm Hf h. unfold bind.
  specialize (Hm h). destruct (m h) as [h' [a | e |]]; simpl in *; subst.
  - apply Hf.
  - reflexivity.
  - reflexivity.
Qed.

Lemma quiet_if {A : Type} (c : bool) (m1 m2 : M A) :
  quiet m1 -> quiet m2 -> quiet (if c then m1 else m2).
Proof. destruct c; auto. Qed.

Lemma quiet_str (m : M value) : quiet m -> quiet (str m).
Proof.
  intros H. unfold str. apply quiet_bind; [exact H |].
  intros v. apply quiet_lift.
Qed.

End Quiet.

Ltac quiet_steps :=
  repeat first
    [ apply quiet_ret | apply quiet_lift | apply quiet_read
    | apply quiet_str | apply quiet_if
    | apply quiet_bind; [| intro] ].

Section QuietRender.

Lemma quiet_pipelineLink : quiet pipelineLink.
Proof. unfold pipelineLink. quiet_steps. Qed.

Lemma quiet_truncatedSha : quiet truncatedSha.
Proof. unfold truncatedSha. quiet_steps. Qed.

Lemma quiet_commitMessage : quiet commitMessage.
Proof. unfold commitMessage. quiet_steps. Qed.

Lemma quiet_by_status table : quiet (by_status table).
Proof. unfold by_status. quiet_steps. Qed.

Lemma quiet_render : quiet render.
Proof.
  unfold render.
  repeat first
    [ apply quiet_pipelineLink | apply quiet_truncatedSha
    | apply quiet_commitMessage | apply quiet_by_status
    | apply quiet_ret | apply quiet_lift | apply quiet_read
    | apply quiet_str | apply quiet_if
    | apply quiet_bind; [| intro] ].
Qed.

End QuietRender.

(** ** Steps that leave the build event alone *)

Section KeepsEvent.

Variable slacker : value -> value -> value -> option string.
Variable config : value.

Lemma quiet_keeps_event {A : Type} (m : M A) : quiet m -> keeps_event m.
Proof. intros H h. now rewrite H. Qed.

Lemma keeps_event_bind {A B : Type} (m : M A) (f : A -> M B) :
  keeps_event m -> (forall a, keeps_event (f a)) -> keeps_event (bind m f).
Proof.
  intros Hm Hf h. unfold bind.
  specialize (Hm h). destruct (m h) as [h' [a | e |]]; simpl in *.
  - now rewrite Hf.
  - exact Hm.
  - exact Hm.
Qed.

Lemma keeps_event_call_slacker token channels payload :
  keeps_event (call_slacker slacker token channels payload).
Proof.
  intros h. unfold call_slacker.
  now destruct (slacker token channels payload).
Qed.

Lemma keeps_event_dispatch : keeps_event (dispatch slacker config).
Proof.
  unfold dispatch.
  apply keeps_event_bind; [apply quiet_keeps_event, quiet_render | intro].
  apply keeps_event_bind; [apply quiet_keeps_event, quiet_lift | intro].
  apply keeps_event_bind; [apply quiet_keeps_event, quiet_read | intro].
  apply keeps_event_call_slacker.
Qed.

Lemma keeps_event_filter_and_dispatch :
  keeps_event (filter_and_dispatch slacker config).
Proof.
  unfold filter_and_dispatch.
  apply keeps_event_bind; [apply quiet_keeps_event, quiet_read | intro].
  apply keeps_event_bind; [apply quiet_keeps_event, quiet_read | intro].
  apply keeps_event_bind; [apply quiet_keeps_event, quiet_lift | intro].
  destruct (negb a1).
  - apply quiet_keeps_event, quiet_ret.
  - apply keeps_event_dispatch.
Qed.

End KeepsEvent.

(** ** Normalization, against its specification *)

Section Normalize.

Lemma normalize_spec fields sf cs :
  Js.lookup "settings" fields = VObj sf ->
  legal_shape (Js.lookup "slack" sf) ->
  normalize (mkHeap (VObj fields) cs)
  = (mkHeap (normalized fields sf) cs, Normal tt).
Proof.
  intros Hs Hshape. unfold normalized, legal_shape in *.
  unfold normalize, bind, read, assign. cbn. rewrite Hs. cbn.
  destruct (Js.lookup "slack" sf) as [| | | | s | l | ps] eqn:Esl;
    try contradiction;
    repeat (progress (cbn; rewrite ?Hs, ?Esl, ?lookup_store_same,
                        ?store_store)); try reflexivity.
  destruct (Js.lookup "statuses" ps) eqn:Ess; try contradiction;
    repeat (progress (cbn; rewrite ?Hs, ?Esl, ?lookup_store_same,
                        ?store_store)); try reflexivity.
  rewrite (store_lookup_eq "slack" (VObj ps) sf Esl) by discriminate.
  rewrite (store_lookup_eq "settings" (VObj sf) fields Hs) by discriminate.
  reflexivity.
Qed.

End Normalize.

(** A notifier that was constructed from an object holds a token. *)
Lemma SlackNotifier_token fields this_config :
  SlackNotifier (VObj fields) = Normal this_config ->
  exists token,
    Js.get this_config "token" = Normal (VStr token) /\ token <> "".
Proof.
  unfold SlackNotifier, Joi.attempt.
  destruct (Joi.validate SCHEMA_SLACK_CONFIG (VObj fields)) eqn:Hv;
    [| discriminate].
  intros [= <-]. cbn in Hv.
  destruct (Js.lookup "token" fields) as [| | | | token | |] eqn:E;
    try discriminate.
  exists token. cbn. rewrite E. split; [reflexivity |].
  intros ->. discriminate.
Qed.

(** ** The gates of [_notify] *)

Section Gates.

Variable slacker : value -> value -> value -> option string.
Variable config : value.

(** The validation gate: a rejected event is dropped. *)
Lemma notify_rejected h :
  Joi.validate SCHEMA_BUILD_DATA (buildData h) = false ->
  _notify slacker config h = (h, Normal tt).
Proof.
  intros H. unfold _notify, bind, read, Joi.attempt. cbn [Js.at_path].
  now rewrite H.
Qed.

(** An accepted event is normalized and goes on to the status
    filter. *)
Lemma notify_accepted fields sf cs :
  Joi.validate SCHEMA_BUILD_DATA (VObj fields) = true ->
  Js.lookup "settings" fields = VObj sf ->
  _notify slacker config (mkHeap (VObj fields) cs)
  = filter_and_dispatch slacker config (mkHeap (normalized fields sf) cs).
Proof.
  intros Hv Hs.
  destruct (valid_build_data_inv fields Hv) as (sf' & st & Hs' & Hsh & _).
  rewrite Hs in Hs'. injection Hs' as <-.
  unfold _notify, bind at 1, read at 1, Joi.attempt.
  cbn [Js.at_path buildData]. rewrite Hv.
  unfold bind at 1, read at 1. cbn [Js.at_path buildData Js.get].
  rewrite Hs. unfold bind at 1, lift at 1. cbn [Js.keys_length].
  destruct sf as [| p sf]; [contradiction |].
  cbn [List.length Nat.eqb].
  unfold bind at 1. now rewrite (normalize_spec fields (p :: sf) cs Hs Hsh).
Qed.

(** The status filter: a status that is not listed ends the call. *)
Lemma filter_drops h statuses status :
  Js.at_path (buildData h) ["settings"; "slack"; "statuses"]
  = Normal statuses ->
  Js.at_path (buildData h) ["status"] = Normal status ->
  Js.includes statuses status = Normal false ->
  filter_and_dispatch slacker config h = (h, Normal tt).
Proof.
  intros H1 H2 H3. unfold filter_and_dispatch, bind, read, lift.
  rewrite H1, H2, H3. reflexivity.
Qed.

(** Past the filter, the message is rendered and sent in one call. *)
Lemma filter_passes h statuses status :
  Js.at_path (buildData h) ["settings"; "slack"; "statuses"]
  = Normal statuses ->
  Js.at_path (buildData h) ["status"] = Normal status ->
  Js.includes statuses status = Normal true ->
  filter_and_dispatch slacker config h = dispatch slacker config h.
Proof.
  intros H1 H2 H3. unfold filter_and_dispatch, bind at 1, read at 1.
  rewrite H1. unfold bind at 1, read at 1. rewrite H2.
  unfold bind at 1, lift at 1. rewrite H3. reflexivity.
Qed.

Lemma dispatch_rendered h payload token channels :
  render h = (h, Normal payload) ->
  Js.get config "token" = Normal token ->
  Js.at_path (buildData h) ["settings"; "slack"; "channels"]
  = Normal channels ->
  dispatch slacker config h
  = (mkHeap (buildData h) (calls h ++ [mkCall token channels payload]),
     match slacker token channels payload with
     | None => Normal tt
     | Some message => Throw (TransportError message)
     end).
Proof.
  intros H1 H2 H3. unfold dispatch, bind, read, lift, call_slacker.
  rewrite H1, H2, H3.
  now destruct (slacker token channels payload).
Qed.

(** When rendering throws, nothing is sent and the error leaves
    [dispatch]. *)
Lemma dispatch_render_throws h e :
  render h = (h, Throw e) ->
  dispatch slacker config h = (h, Throw e).
Proof.
  intros H. unfold dispatch, bind. now rewrite H.
Qed.

(** X22.  An event without [settings], [status] or [pipeline], the
    fields the schema requires, stops at the validation gate: nothing
    is sent, nothing is thrown, the event is left as it was. *)
Lemma missing_required_field_is_dropped fields cs :
  Js.lookup "settings" fields = VUndefined
  \/ Js.lookup "status" fields = VUndefined
  \/ Js.lookup "pipeline" fields = VUndefined ->
  _notify slacker config (mkHeap (VObj fields) cs)
  = (mkHeap (VObj fields) cs, Normal tt).
Proof.
  intros H. apply notify_rejected. cbn.
  destruct H as [H | [H | H]]; rewrite H;
    repeat (rewrite ?andb_false_r; cbn); reflexivity.
Qed.

End Gates.

(** ** Errors that leave [_notify] *)

Section Failures.

Variable slacker : value -> value -> value -> option string.
Variable config : value.

(** C1.  An event that the validation gate accepts, with the default
    statuses and status FAILURE but no [event] field, makes [_notify]
    throw a TypeError while rendering (line 112 reads [sha] of
    [undefined]): the error comes from rendering, not from the
    transport, which is never called. *)
Theorem notify_throws_in_rendering :
  Joi.validate SCHEMA_BUILD_DATA failure_without_commit = true
  /\ snd (run slacker config failure_without_commit)
     = Throw (TypeError "sha")
  /\ calls (fst (run slacker config failure_without_commit)) = [].
Proof. repeat split. Qed.

(** C2.  An event with valid settings and status but no [buildLink]
    passes the validation gate (the schema does not require
    [buildLink]) and makes [_notify] throw a TypeError at line 111,
    where [split] is read from [undefined]. *)
Theorem notify_throws_without_buildLink :
  Joi.validate SCHEMA_BUILD_DATA failure_without_buildLink = true
  /\ snd (run slacker config failure_without_buildLink)
     = Throw (TypeError "split")
  /\ calls (fst (run slacker config failure_without_buildLink)) = [].
Proof. repeat split. Qed.

(** C7.  A minimized event whose status is listed passes the three
    gates, yet the transport is not called: lines 112-116 read the
    commit of the absent [event] although minimized rendering does not
    use it, and [_notify] throws. *)
Theorem notify_minimized_without_commit_sends_nothing :
  Joi.validate SCHEMA_BUILD_DATA minimized_without_commit = true
  /\ Js.includes (VArr [VStr "SUCCESS"]) (VStr "SUCCESS") = Normal true
  /\ calls (fst (run slacker config minimized_without_commit)) = []
  /\ snd (run slacker config minimized_without_commit)
     = Throw (TypeError "sha").
Proof. repeat split. Qed.

End Failures.

(** ** What a call does to the caller's event *)

Section Frame.

Variable slacker : value -> value -> value -> option string.
Variable config : value.

Lemma normalized_unchanged fields sf ps :
  Js.lookup "settings" fields = VObj sf ->
  Js.lookup "slack" sf = VObj ps ->
  Js.is_undefined (Js.lookup "statuses" ps) = false ->
  normalized fields sf = VObj fields.
Proof.
  intros Hs Hsl Hst. unfold normalized. rewrite Hsl.
  unfold canonical_settings. rewrite Hst.
  rewrite (store_lookup_eq "slack" (VObj ps) sf Hsl) by discriminate.
  now rewrite (store_lookup_eq "settings" (VObj sf) fields Hs)
    by discriminate.
Qed.

Lemma run_accepted fields sf :
  Joi.validate SCHEMA_BUILD_DATA (VObj fields) = true ->
  Js.lookup "settings" fields = VObj sf ->
  buildData (fst (run slacker config (VObj fields))) = normalized fields sf.
Proof.
  intros Hv Hs. unfold run.
  rewrite (notify_accepted slacker config fields sf [] Hv Hs).
  now rewrite keeps_event_filter_and_dispatch.
Qed.

(** An event that fails validation is left as it was. *)
Lemma notify_rejected_unchanged data :
  Joi.validate SCHEMA_BUILD_DATA data = false ->
  run slacker config data = (mkHeap data [], Normal tt).
Proof. intros Hv. now apply notify_rejected. Qed.



(** A structured [settings.slack] that lists its statuses is not
    rewritten. *)
Lemma notify_keeps_structured_settings fields sf ps :
  Joi.validate SCHEMA_BUILD_DATA (VObj fields) = true ->
  Js.lookup "settings" fields = VObj sf ->
  Js.lookup "slack" sf = VObj ps ->
  Js.is_undefined (Js.lookup "statuses" ps) = false ->
  buildData (fst (run slacker config (VObj fields))) = VObj fields.
Proof.
  intros Hv Hs Hsl Hst. rewrite (run_accepted fields sf Hv Hs).
  now apply (normalized_unchanged fields sf ps).
Qed.

End Frame.

(** ** Normalization of the three shapes *)

Section Shapes.

(** C4.  In an event whose [settings.slack] holds one of the three
    legal shapes, normalization returns normally and leaves under
    [settings.slack] a canonical object: for a string [s] it is
    [{channels: [s], statuses: DEFAULT_STATUSES, minimized: false}],
    for a list [l] it is
    [{channels: l, statuses: DEFAULT_STATUSES, minimized: false}], and
    for a structured object the channels and the minimized flag are
    the given ones and the statuses are the given ones, or
    [DEFAULT_STATUSES = ["FAILURE"]] when there are none. *)
Theorem normalize_canonical fields sf cs raw :
  Js.lookup "settings" fields = VObj sf ->
  Js.lookup "slack" sf = raw ->
  legal_shape raw ->
  let h' := fst (normalize (mkHeap (VObj fields) cs)) in
  snd (normalize (mkHeap (VObj fields) cs)) = Normal tt
  /\ calls h' = cs
  /\ DEFAULT_STATUSES = VArr [VStr "FAILURE"]
  /\ exists canon,
      Js.at_path (buildData h') ["settings"; "slack"] = Normal canon
      /\ (forall s, raw = VStr s ->
            canon = VObj [("channels", VArr [VStr s]);
                          ("statuses", DEFAULT_STATUSES);
                          ("minimized", VBool false)])
      /\ (forall l, raw = VArr l ->
            canon = VObj [("channels", VArr l);
                          ("statuses", DEFAULT_STATUSES);
                          ("minimized", VBool false)])
      /\ (forall ps, raw = VObj ps ->
            Js.get canon "channels" = Normal (Js.lookup "channels" ps)
            /\ Js.get canon "minimized" = Normal (Js.lookup "minimized" ps)
            /\ Js.get canon "statuses"
               = Normal (if Js.is_undefined (Js.lookup "statuses" ps)
                         then DEFAULT_STATUSES
                         else Js.lookup "statuses" ps)).
Proof.
  intros Hs Hraw Hshape h'. subst h' raw.
  rewrite (normalize_spec fields sf cs Hs Hshape). cbn [fst snd calls].
  repeat split.
  exists (canonical_settings (Js.lookup "slack" sf)). split.
  - unfold normalized. cbn. rewrite lookup_store_same. cbn.
    now rewrite lookup_store_same.
  - repeat split.
    + intros s E. now rewrite E.
    + intros l E. now rewrite E.
    + rewrite H. cbn.
      destruct (Js.is_undefined (Js.lookup "statuses" ps)); cbn;
        [now rewrite lookup_store_other by discriminate | reflexivity].
    + rewrite H. cbn.
      destruct (Js.is_undefined (Js.lookup "statuses" ps)); cbn;
        [now rewrite lookup_store_other by discriminate | reflexivity].
    + rewrite H. cbn.
      destruct (Js.is_undefined (Js.lookup "statuses" ps)) eqn:E; cbn;
        [now rewrite lookup_store_same | reflexivity].
Qed.

Lemma normalize_canonical_witness :
  Js.lookup "settings" [("settings", VObj [("slack", VStr "#general")])]
  = VObj [("slack", VStr "#general")]
  /\ Js.lookup "slack" [("slack", VStr "#general")] = VStr "#general"
  /\ legal_shape (VStr "#general")
  /\ snd (normalize
            (mkHeap (VObj [("settings", VObj [("slack", VStr "#general")])])
                    []))
     = Normal tt.
Proof.
  split; [reflexivity |]. split; [reflexivity |]. split; [exact I |].
  apply (normalize_canonical
           [("settings", VObj [("slack", VStr "#general")])]
           [("slack", VStr "#general")] [] (VStr "#general"));
    [reflexivity | reflexivity | exact I].
Defined.

End Shapes.

(** ** The status filter *)

Section StatusFilter.

Variable slacker : value -> value -> value -> option string.
Variable config : value.

Lemma includes_not_listed (x : value) (l : list value) :
  ~ In x l -> existsb (Js.prim_eq x) l = false.
Proof.
  intros Hnot. induction l as [| y l IH]; simpl; [reflexivity |].
  rewrite IH by (intros Hin; apply Hnot; now right).
  destruct (Js.prim_eq x y) eqn:E; [| reflexivity].
  exfalso. apply Hnot. left.
  destruct x, y; simpl in E; try discriminate; try reflexivity.
  - apply Bool.eqb_prop in E. now subst.
  - apply Z.eqb_eq in E. now subst.
  - apply String.eqb_eq in E. now subst.
Qed.

Lemma status_after_normalize fields sf :
  Js.at_path (normalized fields sf) ["status"]
  = Normal (Js.lookup "status" fields).
Proof.
  unfold normalized. cbn. now rewrite lookup_store_other by discriminate.
Qed.

(** C5.  For a valid event whose status is not among the statuses
    that [settings.slack] lists after normalization, [_notify] returns
    normally and the transport has received no call. *)
Theorem notify_filters_status fields status listed :
  Joi.validate SCHEMA_BUILD_DATA (VObj fields) = true ->
  Js.at_path (buildData (after_normalize (VObj fields)))
             ["settings"; "slack"; "statuses"]
  = Normal (VArr listed) ->
  Js.at_path (buildData (after_normalize (VObj fields))) ["status"]
  = Normal status ->
  ~ In status listed ->
  run slacker config (VObj fields)
  = (after_normalize (VObj fields), Normal tt)
  /\ calls (fst (run slacker config (VObj fields))) = [].
Proof.
  intros Hv Hlist Hstatus Hnot.
  destruct (valid_build_data_inv fields Hv) as (sf & st & Hs & Hsh & Hst & _).
  unfold after_normalize in *.
  rewrite (normalize_spec fields sf [] Hs Hsh) in *. cbn [fst buildData] in *.
  rewrite status_after_normalize, Hst in Hstatus.
  injection Hstatus as <-.
  assert (Hrun : run slacker config (VObj fields)
                 = (mkHeap (normalized fields sf) [], Normal tt)).
  { unfold run. rewrite (notify_accepted slacker config fields sf [] Hv Hs).
    apply filter_drops with (statuses := VArr listed) (status := VStr st).
    - exact Hlist.
    - cbn [buildData]. now rewrite status_after_normalize, Hst.
    - cbn. now rewrite includes_not_listed. }
  rewrite Hrun. split; reflexivity.
Qed.

(** C10.  The schema of statuses accepts the empty list, and an event
    whose structured [settings.slack] has [statuses: []] is never
    sent, whatever its status: the call returns normally without a
    call of the transport and leaves the event, hence the empty list,
    as it was.  [DEFAULT_STATUSES] replaces absent statuses only. *)
Theorem empty_statuses_opt_out fields sf ps :
  Js.lookup "settings" fields = VObj sf ->
  Js.lookup "slack" sf = VObj ps ->
  Js.lookup "statuses" ps = VArr [] ->
  Joi.validate SCHEMA_STATUSES (VArr []) = true
  /\ run slacker config (VObj fields) = (mkHeap (VObj fields) [], Normal tt)
  /\ Js.at_path (buildData (fst (run slacker config (VObj fields))))
                ["settings"; "slack"; "statuses"]
     = Normal (VArr []).
Proof.
  intros Hs Hsl Hst.
  assert (Hpath : Js.at_path (VObj fields) ["settings"; "slack"; "statuses"]
                  = Normal (VArr [])).
  { cbn. rewrite Hs. cbn. rewrite Hsl. cbn. now rewrite Hst. }
  assert (Hrun : run slacker config (VObj fields)
                 = (mkHeap (VObj fields) [], Normal tt)).
  { destruct (Joi.validate SCHEMA_BUILD_DATA (VObj fields)) eqn:Hv.
    - destruct (valid_build_data_inv fields Hv)
        as (sf' & st & Hs' & _ & Hstatus & _).
      unfold run. rewrite (notify_accepted slacker config fields sf [] Hv Hs).
      rewrite (normalized_unchanged fields sf ps Hs Hsl)
        by now rewrite Hst.
      apply filter_drops with (statuses := VArr []) (status := VStr st).
      + exact Hpath.
      + cbn. now rewrite Hstatus.
      + reflexivity.
    - now apply notify_rejected_unchanged. }
  split; [reflexivity |]. split; [exact Hrun |].
  rewrite Hrun. exact Hpath.
Qed.

Lemma statuses_after_normalize fields sf :
  Js.lookup "settings" fields = VObj sf ->
  legal_shape (Js.lookup "slack" sf) ->
  exists listed,
    Js.at_path (normalized fields sf) ["settings"; "slack"; "statuses"]
    = Normal (VArr listed).
Proof.
  intros Hs Hsh. unfold normalized. cbn. rewrite lookup_store_same. cbn.
  rewrite lookup_store_same. unfold legal_shape in Hsh.
  destruct (Js.lookup "slack" sf) as [| | | | s | l | ps]; try contradiction;
    cbn; try (eexists; reflexivity).
  destruct (Js.lookup "statuses" ps) eqn:E; try contradiction; cbn.
  - rewrite lookup_store_same. eexists; reflexivity.
  - rewrite E. eexists; reflexivity.
Qed.

(** For an event that is an object, validation, normalization and the
    status filter do not throw: an error that leaves [_notify] was
    thrown past the filter, while rendering, reading the token or in
    the transport. *)
Lemma notify_throw_origin fields e :
  snd (run slacker config (VObj fields)) = Throw e ->
  Joi.validate SCHEMA_BUILD_DATA (VObj fields) = true
  /\ snd (dispatch slacker config (after_normalize (VObj fields))) = Throw e.
Proof.
  intros Hthrow.
  destruct (Joi.validate SCHEMA_BUILD_DATA (VObj fields)) eqn:Hv.
  - split; [reflexivity |].
    destruct (valid_build_data_inv fields Hv) as (sf & st & Hs & Hsh & Hst & _).
    destruct (statuses_after_normalize fields sf Hs Hsh) as [listed Hlist].
    unfold after_normalize.
    rewrite (normalize_spec fields sf [] Hs Hsh). cbn [fst].
    unfold run in Hthrow.
    rewrite (notify_accepted slacker config fields sf [] Hv Hs) in Hthrow.
    assert (Hstatus : Js.at_path (normalized fields sf) ["status"]
                      = Normal (VStr st))
      by now rewrite status_after_normalize, Hst.
    destruct (existsb (Js.prim_eq (VStr st)) listed) eqn:Hin.
    + rewrite (filter_passes slacker config (mkHeap (normalized fields sf) [])
                 (VArr listed) (VStr st) Hlist Hstatus) in Hthrow;
        [exact Hthrow | cbn; now rewrite Hin].
    + rewrite (filter_drops slacker config (mkHeap (normalized fields sf) [])
                 (VArr listed) (VStr st) Hlist Hstatus) in Hthrow;
        [discriminate | cbn; now rewrite Hin].
  - rewrite (notify_rejected_unchanged slacker config (VObj fields) Hv)
      in Hthrow.
    discriminate.
Qed.

End StatusFilter.

Lemma notify_filters_status_witness :
  Joi.validate SCHEMA_BUILD_DATA running_event = true
  /\ Js.at_path (buildData (after_normalize running_event))
                ["settings"; "slack"; "statuses"]
     = Normal (VArr [VStr "FAILURE"])
  /\ Js.at_path (buildData (after_normalize running_event)) ["status"]
     = Normal (VStr "RUNNING")
  /\ ~ In (VStr "RUNNING") [VStr "FAILURE"]
  /\ calls (fst (run quiet_transport some_config running_event)) = [].
Proof.
  split; [reflexivity |]. split; [reflexivity |]. split; [reflexivity |].
  split; [intros [H | []]; discriminate H |].
  apply (notify_filters_status quiet_transport some_config
           [("settings", VObj [("slack", VStr "#general")]);
            ("status", VStr "RUNNING");
            ("pipeline", pipeline_data);
            ("jobName", VStr "publish");
            ("build", VObj [("id", VNum 1234)]);
            ("event", commit_event);
            ("buildLink", build_link)]
           (VStr "RUNNING") [VStr "FAILURE"]).
  - reflexivity.
  - reflexivity.
  - reflexivity.
  - intros [H | []]. discriminate H.
Defined.

Lemma empty_statuses_opt_out_witness :
  Js.lookup "settings" opted_out_fields = VObj opted_out_settings
  /\ Js.lookup "slack" opted_out_settings = VObj opted_out_slack
  /\ Js.lookup "statuses" opted_out_slack = VArr []
  /\ Joi.validate SCHEMA_BUILD_DATA (VObj opted_out_fields) = true
  /\ run quiet_transport some_config (VObj opted_out_fields)
     = (mkHeap (VObj opted_out_fields) [], Normal tt).
Proof.
  split; [reflexivity |]. split; [reflexivity |]. split; [reflexivity |].
  split; [reflexivity |].
  apply (empty_statuses_opt_out quiet_transport some_config
           opted_out_fields opted_out_settings opted_out_slack);
    reflexivity.
Defined.

(** ** Strings *)

Section Strings.

Lemma substring0_length n : forall s,
  n <= String.length s -> String.length (String.substring 0 n s) = n.
Proof.
  induction n as [| n IH]; intros [| c s] H; simpl in *; try lia;
    try reflexivity.
  rewrite IH; lia.
Qed.

Lemma substring0_prefix n : forall s,
  String.prefix (String.substring 0 n s) s = true.
Proof.
  induction n as [| n IH]; intros [| c s]; simpl; try reflexivity.
  destruct (ascii_dec c c) as [_ | Hne]; [apply IH | now elim Hne].
Qed.

Lemma prefix_append a : forall s,
  String.prefix a s = true -> exists b, s = a ++ b.
Proof.
  induction a as [| c a IH]; intros s H.
  - exists s. reflexivity.
  - destruct s as [| d s]; simpl in H; [discriminate |].
    destruct (ascii_dec c d) as [<- | _]; [| discriminate].
    destruct (IH s H) as [b ->]. now exists b.
Qed.

Lemma append_prefix a : forall b, String.prefix a (a ++ b) = true.
Proof.
  induction a as [| c a IH]; intros b; simpl.
  - now destruct b.
  - destruct (ascii_dec c c) as [_ | Hne]; [apply IH | now elim Hne].
Qed.

Lemma append_assoc (a b c : string) : (a ++ b) ++ c = a ++ (b ++ c).
Proof. induction a as [| x a IH]; simpl; [reflexivity | now rewrite IH]. Qed.

Lemma split_go_nonempty sep : forall s skip cur,
  Js.split_go sep skip cur s <> [].
Proof.
  induction s as [| c s IH]; intros skip cur; cbn [Js.split_go];
    [discriminate |].
  destruct skip; [| apply IH].
  destruct (String.prefix sep (String c s)); [discriminate | apply IH].
Qed.

(** The first piece is what precedes the leftmost separator. *)
Lemma split_go_first sep rest : forall p cur,
  sep <> "" ->
  (forall a b, p ++ sep ++ rest = a ++ sep ++ b ->
               String.length p <= String.length a) ->
  hd "" (Js.split_go sep 0 cur (p ++ sep ++ rest)) = cur ++ p.
Proof.
  induction p as [| c p IH]; intros cur Hsep Hleft.
  - simpl. destruct sep as [| d sep]; [now elim Hsep |].
    change (String d sep ++ rest) with (String d (sep ++ rest)).
    cbn [Js.split_go].
    change (String d (sep ++ rest)) with (String d sep ++ rest).
    rewrite append_prefix. simpl.
    clear. induction cur as [| x cur IH]; simpl; [reflexivity | now f_equal].
  - change (String c p ++ sep ++ rest) with (String c (p ++ sep ++ rest)).
    cbn [Js.split_go].
    destruct (String.prefix sep (String c (p ++ sep ++ rest))) eqn:E.
    + apply prefix_append in E. destruct E as [b Hb].
      specialize (Hleft "" b). simpl in Hleft.
      specialize (Hleft Hb). lia.
    + rewrite IH; [| exact Hsep |].
      * rewrite append_assoc. reflexivity.
      * intros a b Hab.
        specialize (Hleft (String c a) b). simpl in Hleft.
        rewrite Hab in Hleft. specialize (Hleft eq_refl). lia.
Qed.

Lemma split_first sep p rest :
  sep <> "" ->
  (forall a b, p ++ sep ++ rest = a ++ sep ++ b ->
               String.length p <= String.length a) ->
  hd "" (Js.split_string sep (p ++ sep ++ rest)) = p.
Proof.
  intros Hsep Hleft. unfold Js.split_string.
  now rewrite split_go_first.
Qed.

End Strings.

(** ** Rendering *)

Section Rendering.

Lemma pipelineLink_string h link :
  Js.at_path (buildData h) ["buildLink"] = Normal (VStr link) ->
  pipelineLink h = (h, Normal (VStr (pipeline_of link))).
Proof.
  intros H. unfold pipelineLink, bind, read, lift, ret. rewrite H.
  cbn [Js.split]. unfold pipeline_of, Js.split_string.
  destruct (Js.split_go "/builds" 0 "" link) eqn:E; [| reflexivity].
  now apply split_go_nonempty in E.
Qed.

Lemma commitMessage_string h m :
  Js.at_path (buildData h) ["event"; "commit"; "message"]
  = Normal (VStr m) ->
  commitMessage h = (h, Normal (VStr (shown_commit m))).
Proof.
  intros H. unfold commitMessage, bind, read, lift, ret. rewrite H.
  cbn [Js.get String.eqb Ascii.eqb Bool.eqb Js.greater].
  unfold shown_commit.
  destruct (cutOff <? String.length m)%nat eqn:E.
  - apply Nat.ltb_lt in E.
    replace (Z.of_nat cutOff <? Z.of_nat (String.length m))%Z with true
      by (symmetry; apply Z.ltb_lt; lia).
    rewrite H. reflexivity.
  - apply Nat.ltb_ge in E.
    replace (Z.of_nat cutOff <? Z.of_nat (String.length m))%Z with false
      by (symmetry; apply Z.ltb_ge; lia).
    rewrite H. reflexivity.
Qed.

(** The commit message computed by lines 113-116 for a message [m] that
    is a string: the first 150 characters of [m] followed by "..." when
    [m] is longer than 150 characters, and [m] itself otherwise. *)
Theorem commitMessage_cut h m :
  Js.at_path (buildData h) ["event"; "commit"; "message"]
  = Normal (VStr m) ->
  cutOff = 150
  /\ (cutOff < String.length m ->
      commitMessage h
      = (h, Normal (VStr (String.substring 0 cutOff m ++ "...")))
      /\ String.length (String.substring 0 cutOff m) = cutOff
      /\ String.prefix (String.substring 0 cutOff m) m = true)
  /\ (String.length m <= cutOff -> commitMessage h = (h, Normal (VStr m))).
Proof.
  intros H. split; [reflexivity |]. split.
  - intros Hlong. rewrite (commitMessage_string h m H). unfold shown_commit.
    apply Nat.ltb_lt in Hlong. rewrite Hlong. repeat split.
    + apply substring0_length. apply Nat.ltb_lt in Hlong. lia.
    + apply substring0_prefix.
  - intros Hshort. rewrite (commitMessage_string h m H). unfold shown_commit.
    apply Nat.ltb_ge in Hshort. now rewrite Hshort.
Qed.

End Rendering.

Section RenderedMessage.

(** X25.  In an event that has the fields rendering reads, with
    [pipeline_of link] the piece of [buildLink] before "/builds":
    when the minimized flag is set, the header is
    "<pipelineLink|repoName#jobName> *STATUS*" and the attachment is
    the single field "Build" whose value links "#buildId" to the
    build link, with the color of the status; otherwise the header is
    "*STATUS* emoji <pipelineLink|repoName jobName>" with the emoji of
    the status, and the attachment has the title "#buildId" linked to
    the build link and, as text, the commit message, the first six
    characters of the sha linked to the commit url, a newline and the
    cause message.  Rendering leaves the heap as it was. *)
Theorem render_format h link repo job st emoji color id sha m url cause
        flag minimized :
  Js.at_path (buildData h) ["buildLink"] = Normal (VStr link) ->
  Js.at_path (buildData h) ["pipeline"; "scmRepo"; "name"]
  = Normal (VStr repo) ->
  Js.at_path (buildData h) ["jobName"] = Normal (VStr job) ->
  Js.at_path (buildData h) ["status"] = Normal (VStr st) ->
  Js.index STATUSES_MAP (VStr st) = Normal (VStr emoji) ->
  Js.index COLOR_MAP (VStr st) = Normal color ->
  Js.at_path (buildData h) ["build"; "id"] = Normal (VNum id) ->
  Js.is_safe_integer id = true ->
  Js.at_path (buildData h) ["event"; "sha"] = Normal (VStr sha) ->
  Js.at_path (buildData h) ["event"; "commit"; "message"]
  = Normal (VStr m) ->
  Js.at_path (buildData h) ["event"; "commit"; "url"] = Normal (VStr url) ->
  Js.at_path (buildData h) ["event"; "causeMessage"]
  = Normal (VStr cause) ->
  Js.at_path (buildData h) ["settings"; "slack"; "minimized"]
  = Normal flag ->
  Js.truthy flag = minimized ->
  render h
  = (h,
     Normal
       (VObj
          [("message",
            VStr (if minimized
                  then "<" ++ pipeline_of link ++ "|" ++ repo ++ "#" ++ job
                           ++ "> *" ++ st ++ "*"
                  else "*" ++ st ++ "* " ++ emoji ++ " <"
                           ++ pipeline_of link ++ "|" ++ repo ++ " " ++ job
                           ++ ">"));
           ("attachments",
            VArr
              [if minimized
               then VObj [("fallback", VStr "");
                          ("color", color);
                          ("fields",
                           VArr [VObj [("title", VStr "Build");
                                       ("value",
                                        VStr ("<" ++ link ++ "|#"
                                                  ++ Js.decimal id ++ ">"));
                                       ("short", VBool true)]])]
               else VObj [("fallback", VStr "");
                          ("color", color);
                          ("title", VStr ("#" ++ Js.decimal id));
                          ("title_link", VStr link);
                          ("text",
                           VStr ((shown_commit m ++ " (<" ++ url ++ "|"
                                    ++ String.substring 0 6 sha ++ ">)")
                                   ++ (newline ++ cause)))]])])).
Proof.
  intros Hlink Hrepo Hjob Hst Hemoji Hcolor Hid Hsafe Hsha Hm Hurl Hcause
         Hflag Hmin.
  cbv beta iota delta [render bind str by_status truncatedSha read lift ret].
  rewrite (pipelineLink_string h link Hlink). cbv beta iota.
  rewrite Hsha. cbv beta iota. cbn [Js.slice0].
  rewrite (commitMessage_string h m Hm). cbv beta iota.
  rewrite Hflag. cbv beta iota. rewrite Hmin.
  destruct minimized;
    repeat (progress (rewrite ?Hrepo, ?Hjob, ?Hst, ?Hemoji, ?Hcolor, ?Hid,
                        ?Hlink, ?Hurl, ?Hcause, ?Hsafe;
                      cbv beta iota; cbn [Js.toString]));
    reflexivity.
Qed.

(** C9.  Rendering reads the event and nothing else changes: it
    leaves the heap as it was, a second rendering gives the result of
    the first, and two renderings in a row return the same message
    twice. *)
Theorem render_pure_repeatable h :
  fst (render h) = h
  /\ snd (render (fst (render h))) = snd (render h)
  /\ (first <- render ;; second <- render ;; ret (first, second)) h
     = (h,
        match snd (render h) with
        | Normal payload => Normal (payload, payload)
        | Throw e => Throw e
        | Unsupported => Unsupported
        end).
Proof.
  pose proof (quiet_render h) as Hq.
  split; [exact Hq |]. split; [now rewrite Hq |].
  unfold bind at 1.
  destruct (render h) as [h' [payload | e |]] eqn:E; simpl in Hq; subst h';
    try reflexivity.
  unfold bind at 1. rewrite E. reflexivity.
Qed.

End RenderedMessage.

Lemma commitMessage_cut_witness :
  Js.at_path (buildData (mkHeap long_message_event []))
             ["event"; "commit"; "message"]
  = Normal (VStr long_message)
  /\ cutOff < String.length long_message
  /\ commitMessage (mkHeap long_message_event [])
     = (mkHeap long_message_event [],
        Normal (VStr (String.concat "" (List.repeat "abcdefghij" 15)
                        ++ "..."))).
Proof.
  assert (Hpath : Js.at_path (buildData (mkHeap long_message_event []))
                             ["event"; "commit"; "message"]
                  = Normal (VStr long_message)) by reflexivity.
  assert (Hlong : cutOff < String.length long_message)
    by (vm_compute; lia).
  split; [exact Hpath |]. split; [exact Hlong |].
  destruct (commitMessage_cut (mkHeap long_message_event []) long_message
              Hpath) as (_ & Hcut & _).
  destruct (Hcut Hlong) as (E & _). rewrite E. reflexivity.
Defined.

Lemma render_format_witness :
  Js.at_path (buildData (after_normalize failure_event))
             ["settings"; "slack"; "minimized"]
  = Normal (VBool false)
  /\ Js.at_path (buildData (after_normalize minimized_event))
                ["settings"; "slack"; "minimized"]
     = Normal (VBool true)
  /\ snd (render (after_normalize failure_event))
     = Normal
         (VObj
            [("message",
              VStr "*FAILURE* :umbrella: <https://cd.screwdriver.cd/pipelines/12|screwdriver-cd/ui publish>");
             ("attachments",
              VArr
                [VObj [("fallback", VStr "");
                       ("color", VStr "danger");
                       ("title", VStr "#1234");
                       ("title_link",
                        VStr "https://cd.screwdriver.cd/pipelines/12/builds/1234");
                       ("text",
                        VStr ("Fix the build (<https://github.com/screwdriver-cd/ui/commit/12|123456>)"
                                ++ newline ++ "Merged by batman"))]])])
  /\ snd (render (after_normalize minimized_event))
     = Normal
         (VObj
            [("message",
              VStr "<https://cd.screwdriver.cd/pipelines/12|screwdriver-cd/ui#publish> *SUCCESS*");
             ("attachments",
              VArr
                [VObj [("fallback", VStr "");
                       ("color", VStr "good");
                       ("fields",
                        VArr [VObj [("title", VStr "Build");
                                    ("value",
                                     VStr "<https://cd.screwdriver.cd/pipelines/12/builds/1234|#1234>");
                                    ("short", VBool true)]])]])]).
Proof.
  split; [reflexivity |]. split; [reflexivity |]. split.
  - rewrite (render_format (after_normalize failure_event)
               "https://cd.screwdriver.cd/pipelines/12/builds/1234"
               "screwdriver-cd/ui" "publish" "FAILURE" ":umbrella:"
               (VStr "danger") 1234
               "1234567890abcdeffedcba098765432100000000" "Fix the build"
               "https://github.com/screwdriver-cd/ui/commit/12"
               "Merged by batman" (VBool false) false);
      reflexivity.
  - rewrite (render_format (after_normalize minimized_event)
               "https://cd.screwdriver.cd/pipelines/12/builds/1234"
               "screwdriver-cd/ui" "publish" "SUCCESS" ":sunny:"
               (VStr "good") 1234
               "1234567890abcdeffedcba098765432100000000" "Fix the build"
               "https://github.com/screwdriver-cd/ui/commit/12"
               "Merged by batman" (VBool true) true);
      reflexivity.
Defined.

(** ** The pipeline link and the single call of the transport *)

Section Dispatch.

Variable slacker : value -> value -> value -> option string.
Variable config : value.

(** X17.  When "/builds" first occurs in the build link right after
    [p], the pipeline link is [p]. *)
Lemma pipeline_of_prefix p rest :
  (forall a b, p ++ "/builds" ++ rest = a ++ "/builds" ++ b ->
               String.length p <= String.length a) ->
  pipeline_of (p ++ "/builds" ++ rest) = p.
Proof.
  intros H. unfold pipeline_of. apply split_first; [discriminate | exact H].
Qed.

(** X11.  An accepted event whose status is listed and whose message
    renders is handed to the transport in one call, with the token,
    the whole channel list and the rendered message; an error of the
    transport is the error of the call. *)
Lemma notify_dispatches_once fields statuses status payload token channels :
  Joi.validate SCHEMA_BUILD_DATA (VObj fields) = true ->
  Js.at_path (buildData (after_normalize (VObj fields)))
             ["settings"; "slack"; "statuses"]
  = Normal statuses ->
  Js.at_path (buildData (after_normalize (VObj fields))) ["status"]
  = Normal status ->
  Js.includes statuses status = Normal true ->
  render (after_normalize (VObj fields))
  = (after_normalize (VObj fields), Normal payload) ->
  Js.get config "token" = Normal token ->
  Js.at_path (buildData (after_normalize (VObj fields)))
             ["settings"; "slack"; "channels"]
  = Normal channels ->
  run slacker config (VObj fields)
  = (mkHeap (buildData (after_normalize (VObj fields)))
            [mkCall token channels payload],
     match slacker token channels payload with
     | None => Normal tt
     | Some message => Throw (TransportError message)
     end).
Proof.
  intros Hv Hlist Hstatus Hin Hrender Htoken Hchannels.
  destruct (valid_build_data_inv fields Hv) as (sf & st & Hs & Hsh & _).
  unfold after_normalize in *.
  rewrite (normalize_spec fields sf [] Hs Hsh) in *. cbn [fst buildData] in *.
  unfold run. rewrite (notify_accepted slacker config fields sf [] Hv Hs).
  rewrite (filter_passes slacker config (mkHeap (normalized fields sf) [])
             statuses status Hlist Hstatus Hin).
  now rewrite (dispatch_rendered slacker config
                 (mkHeap (normalized fields sf) []) payload token channels
                 Hrender Htoken Hchannels).
Qed.

End Dispatch.

(** The first scenario of the specification: one call, to "#general",
    for a failed build. *)
Example failure_event_is_sent :
  run quiet_transport some_config failure_event
  = (mkHeap (buildData (after_normalize failure_event))
            [mkCall (VStr "xoxb-token") (VArr [VStr "#general"])
                    (VObj
                       [("message",
                         VStr "*FAILURE* :umbrella: <https://cd.screwdriver.cd/pipelines/12|screwdriver-cd/ui publish>");
                        ("attachments",
                         VArr
                           [VObj [("fallback", VStr "");
                                  ("color", VStr "danger");
                                  ("title", VStr "#1234");
                                  ("title_link",
                                   VStr "https://cd.screwdriver.cd/pipelines/12/builds/1234");
                                  ("text",
                                   VStr ("Fix the build (<https://github.com/screwdriver-cd/ui/commit/12|123456>)"
                                           ++ newline
                                           ++ "Merged by batman"))]])])],
     Normal tt).
Proof. reflexivity. Qed.

(** An error of the transport leaves [_notify]. *)
Example transport_error_propagates :
  snd (run (fun _ _ _ => Some "invalid_auth") some_config failure_event)
  = Throw (TransportError "invalid_auth").
Proof. reflexivity. Qed.

(** Events without a required field stop at the validation gate. *)
Example event_without_pipeline_is_dropped :
  run quiet_transport some_config
      (VObj [("settings", VObj [("slack", VStr "#general")]);
             ("status", VStr "FAILURE");
             ("jobName", VStr "publish");
             ("build", VObj [("id", VNum 1234)]);
             ("event", commit_event);
             ("buildLink", build_link)])
  = (mkHeap
       (VObj [("settings", VObj [("slack", VStr "#general")]);
              ("status", VStr "FAILURE");
              ("jobName", VStr "publish");
              ("build", VObj [("id", VNum 1234)]);
              ("event", commit_event);
              ("buildLink", build_link)])
       [],
     Normal tt).
Proof. reflexivity. Qed.

(** ** The schemas, read as input contracts *)

Section Schemas.

Variable slacker : value -> value -> value -> option string.
Variable config : value.

(** An object schema with declared keys checks every declared key
    against the value it finds, and the keys it finds against the
    declared ones. *)
Lemma check_object children unknown ps :
  Joi.check (Joi.SObject (Some children) unknown) (VObj ps)
  = forallb (fun kc => Joi.validate (snd kc) (Js.lookup (fst kc) ps))
            children
    && (unknown
        || forallb (fun kv => existsb (String.eqb (fst kv)) (map fst children))
                   ps).
Proof.
  cbn [Joi.check]. f_equal.
  induction children as [| [k c] children IH]; [reflexivity |].
  cbn [forallb fst snd]. rewrite IH. unfold Joi.validate.
  now destruct (Js.lookup k ps).
Qed.

Lemma known_keys_spec ks (ps : list (string * value)) :
  forallb (fun kv => existsb (String.eqb (fst kv)) ks) ps = true
  <-> (forall k v, In (k, v) ps -> In k ks).
Proof.
  rewrite forallb_forall. split.
  - intros H k v Hin. specialize (H (k, v) Hin). cbn in H.
    apply existsb_exists in H. destruct H as (k' & Hk' & E).
    apply String.eqb_eq in E. now subst.
  - intros H [k v] Hin. cbn. apply existsb_exists. exists k.
    split; [now apply (H k v) | apply String.eqb_refl].
Qed.

Lemma unknown_key_refused ks (ps : list (string * value)) k v :
  In (k, v) ps -> ~ In k ks ->
  forallb (fun kv => existsb (String.eqb (fst kv)) ks) ps = false.
Proof.
  intros Hin Hk.
  destruct (forallb _ ps) eqn:E; [| reflexivity].
  exfalso. apply Hk. now apply (proj1 (known_keys_spec ks ps) E k v).
Qed.

Lemma validate_build_data_unfold fields :
  Joi.validate SCHEMA_BUILD_DATA (VObj fields)
  = Joi.validate (Joi.required SCHEMA_SLACK_SETTINGS)
                 (Js.lookup "settings" fields)
    && (Joi.validate (Joi.required SCHEMA_STATUS) (Js.lookup "status" fields)
        && (Joi.validate (Joi.required SCHEMA_PIPELINE_DATA)
                         (Js.lookup "pipeline" fields)
            && (Joi.validate Joi.string_ (Js.lookup "jobName" fields)
                && (Joi.validate
                      (Joi.unknown true
                         (Joi.keys [("id", Joi.required Joi.number_integer)]
                                   Joi.object_))
                      (Js.lookup "build" fields)
                    && (Joi.validate Joi.object_ (Js.lookup "event" fields)
                        && (Joi.validate Joi.string_
                                         (Js.lookup "buildLink" fields)
                            && true))))))
    && forallb
         (fun kv =>
            existsb (String.eqb (fst kv))
                    ["settings"; "status"; "pipeline"; "jobName"; "build";
                     "event"; "buildLink"])
         fields.
Proof.
  unfold Joi.validate at 1. unfold SCHEMA_BUILD_DATA, Joi.keys, Joi.object_.
  rewrite check_object. reflexivity.
Qed.

Lemma validate_settings_unfold sf :
  Joi.validate (Joi.required SCHEMA_SLACK_SETTINGS) (VObj sf)
  = match Js.lookup "slack" sf with
    | VUndefined => false
    | slack =>
        Joi.check (Joi.keys [("channels", SCHEMA_SLACK_CHANNELS);
                             ("statuses", SCHEMA_STATUSES);
                             ("minimized", Joi.boolean)]
                            Joi.object_) slack
        || Joi.check SCHEMA_SLACK_CHANNELS slack
        || Joi.check SCHEMA_SLACK_CHANNEL slack
    end.
Proof.
  cbn [Joi.validate Joi.required Joi.check].
  unfold SCHEMA_SLACK_SETTINGS, Joi.unknown, Joi.keys, Joi.object_.
  rewrite check_object. cbn [forallb fst snd orb]. rewrite !andb_true_r.
  unfold Joi.validate, Joi.required, Joi.alternatives_try.
  destruct (Js.lookup "slack" sf); cbn [Joi.is_required negb Joi.check existsb];
    rewrite ?orb_false_r, ?orb_assoc; reflexivity.
Qed.

(** X1.  The constructor keeps a configuration object exactly when its
    [token] is a non-empty string and it has no other key; any other
    configuration object makes it throw the validation error "Invalid
    config for slack notifications". *)
Theorem SlackNotifier_accepts fields :
  (SlackNotifier (VObj fields) = Normal (VObj fields)
   <-> (exists token, Js.lookup "token" fields = VStr token /\ token <> "")
       /\ (forall k v, In (k, v) fields -> k = "token"))
  /\ (SlackNotifier (VObj fields) = Normal (VObj fields)
      \/ SlackNotifier (VObj fields)
         = Throw (ValidationError "Invalid config for slack notifications")).
Proof.
  unfold SlackNotifier, Joi.attempt.
  assert (Hv : Joi.validate SCHEMA_SLACK_CONFIG (VObj fields) = true
               <-> (exists token,
                       Js.lookup "token" fields = VStr token /\ token <> "")
                   /\ (forall k v, In (k, v) fields -> k = "token")).
  { unfold Joi.validate, SCHEMA_SLACK_CONFIG, Joi.keys, Joi.object_.
    rewrite check_object. cbn [forallb fst snd orb map].
    rewrite andb_true_r, andb_true_iff, known_keys_spec.
    unfold Joi.validate, Joi.required, Joi.string_.
    split; intros [Ht Hk]; split.
    - destruct (Js.lookup "token" fields) as [| | | | t | |]; cbn in Ht;
        try discriminate.
      exists t. split; [reflexivity |]. intros ->. discriminate.
    - intros k v Hin. destruct (Hk k v Hin) as [<- | []]. reflexivity.
    - destruct Ht as (t & -> & Hne). cbn. apply String.eqb_neq in Hne.
      now rewrite Hne.
    - intros k v Hin. left. symmetry. now apply (Hk k v). }
  destruct (Joi.validate SCHEMA_SLACK_CONFIG (VObj fields)) eqn:E.
  - split; [| now left]. split; [intros _; now apply Hv | reflexivity].
  - split; [| now right]. split; [discriminate |].
    intros H. apply Hv in H. discriminate.
Qed.

(** X2.  An event whose [settings] has no [slack] entry (empty settings,
    or settings of other plugins only) is dropped at the validation
    gate: the call returns normally, the transport is not called and
    the event is not written to. *)
Theorem notify_without_slack_settings fields sf cs :
  Js.lookup "settings" fields = VObj sf ->
  Js.lookup "slack" sf = VUndefined ->
  _notify slacker config (mkHeap (VObj fields) cs)
  = (mkHeap (VObj fields) cs, Normal tt).
Proof.
  intros Hs Hsl. apply notify_rejected. cbn [buildData].
  rewrite validate_build_data_unfold, Hs, validate_settings_unfold, Hsl.
  reflexivity.
Qed.

(** X3.  An event whose [settings] has no key at all
    ([Object.keys(buildData.settings).length] is zero: an empty object,
    an empty list, an empty string, a number, a boolean) does not pass
    the validation gate, whatever its status and its other fields: the
    call returns there, before the test of line 90, without a call of
    the transport. *)
Theorem settings_gate_never_fires fields cs :
  Js.keys_length (Js.lookup "settings" fields) = Normal 0 ->
  Joi.validate SCHEMA_BUILD_DATA (VObj fields) = false
  /\ _notify slacker config (mkHeap (VObj fields) cs)
     = (mkHeap (VObj fields) cs, Normal tt).
Proof.
  intros Hzero.
  assert (Hv : Joi.validate SCHEMA_BUILD_DATA (VObj fields) = false).
  { destruct (Joi.validate SCHEMA_BUILD_DATA (VObj fields)) eqn:Hv;
      [| reflexivity].
    destruct (valid_build_data_inv fields Hv) as (sf & st & Hs & Hsh & _).
    rewrite Hs in Hzero. destruct sf as [| p sf]; [contradiction |].
    discriminate Hzero. }
  split; [exact Hv |]. now apply notify_rejected.
Qed.

(** X4.  An event with a key other than the seven the schema declares
    is dropped at the validation gate, whatever else it holds. *)
Theorem undeclared_key_is_dropped fields cs k v :
  In (k, v) fields ->
  ~ In k ["settings"; "status"; "pipeline"; "jobName"; "build"; "event";
          "buildLink"] ->
  _notify slacker config (mkHeap (VObj fields) cs)
  = (mkHeap (VObj fields) cs, Normal tt).
Proof.
  intros Hin Hk. apply notify_rejected. cbn [buildData].
  rewrite validate_build_data_unfold.
  rewrite (unknown_key_refused _ fields k v Hin Hk).
  apply andb_false_r.
Qed.

(** X5.  An event whose [status] is not one of the five keys of
    [COLOR_MAP] (another string, another type, no status) is dropped at
    the validation gate. *)
Theorem unlisted_status_is_dropped fields cs :
  (forall st, Js.lookup "status" fields = VStr st ->
              ~ In st ["SUCCESS"; "FAILURE"; "ABORTED"; "RUNNING"; "QUEUED"]) ->
  _notify slacker config (mkHeap (VObj fields) cs)
  = (mkHeap (VObj fields) cs, Normal tt).
Proof.
  intros Hst. apply notify_rejected. cbn [buildData].
  rewrite validate_build_data_unfold.
  assert (E : Joi.validate (Joi.required SCHEMA_STATUS)
                           (Js.lookup "status" fields) = false).
  { destruct (Js.lookup "status" fields) as [| | | | st | |] eqn:Est;
      try reflexivity.
    cbn -[existsb]. destruct (existsb _ _) eqn:Ex; [| reflexivity].
    apply existsb_exists in Ex. destruct Ex as (x & Hx & Exs).
    apply String.eqb_eq in Exs. subst x. now elim (Hst st eq_refl). }
  rewrite E. now rewrite andb_false_r.
Qed.

(** X6.  The schema of [settings] looks at the [slack] entry only:
    writing any other entry (the settings of another plugin) does not
    change whether the settings are accepted. *)
Theorem settings_of_other_plugins sf k v :
  k <> "slack" ->
  Joi.validate (Joi.required SCHEMA_SLACK_SETTINGS) (VObj (Js.store k v sf))
  = Joi.validate (Joi.required SCHEMA_SLACK_SETTINGS) (VObj sf).
Proof.
  intros Hk. rewrite !validate_settings_unfold.
  now rewrite lookup_store_other by (intros E; apply Hk; now symmetry).
Qed.

(** X7.  A structured [settings.slack] with a key other than
    [channels], [statuses] and [minimized] matches none of the three
    alternatives, and the event is dropped at the validation gate. *)
Theorem undeclared_slack_key_is_dropped fields sf ps cs k v :
  Js.lookup "settings" fields = VObj sf ->
  Js.lookup "slack" sf = VObj ps ->
  In (k, v) ps ->
  ~ In k ["channels"; "statuses"; "minimized"] ->
  _notify slacker config (mkHeap (VObj fields) cs)
  = (mkHeap (VObj fields) cs, Normal tt).
Proof.
  intros Hs Hsl Hin Hk. apply notify_rejected. cbn [buildData].
  rewrite validate_build_data_unfold, Hs, validate_settings_unfold, Hsl.
  unfold Joi.keys, Joi.object_. rewrite check_object.
  cbn [map fst orb]. rewrite (unknown_key_refused _ ps k v Hin Hk).
  rewrite andb_false_r. reflexivity.
Qed.

(** X8.  The schema of channel lists accepts exactly the non-empty
    lists of non-empty strings. *)
Theorem channels_schema_accepts l :
  Joi.check SCHEMA_SLACK_CHANNELS (VArr l) = true
  <-> l <> [] /\ (forall x, In x l -> exists s, x = VStr s /\ s <> "").
Proof.
  cbn -[forallb]. rewrite !andb_true_iff, forallb_forall. split.
  - intros [[Hlen Hall] _]. split.
    + intros ->. discriminate.
    + intros x Hx. specialize (Hall x Hx). apply andb_prop in Hall.
      destruct Hall as [_ Hall].
      destruct x as [| | | | s | |]; try discriminate.
      exists s. split; [reflexivity |]. intros ->. discriminate.
  - intros [Hne Hall]. destruct l as [| y l]; [now elim Hne |].
    repeat split.
    intros x Hx. destruct (Hall x Hx) as (s & -> & Hs). cbn.
    apply String.eqb_neq in Hs. now rewrite Hs.
Qed.

(** X9.  Every status the schema accepts has a color in [COLOR_MAP] and
    an emoji in [STATUSES_MAP], both strings. *)
Theorem status_tables_cover status :
  Joi.check SCHEMA_STATUS status = true ->
  exists st color emoji,
    status = VStr st
    /\ Js.index COLOR_MAP status = Normal (VStr color)
    /\ Js.index STATUSES_MAP status = Normal (VStr emoji).
Proof.
  intros H. destruct status as [| | | | st | |]; try discriminate.
  cbn in H.
  repeat match goal with
         | Hx : (_ || _)%bool = true |- _ =>
             apply orb_prop in Hx; destruct Hx as [Hx | Hx]
         | Hx : (_ =? _) = true |- _ => apply String.eqb_eq in Hx; subst
         end; try discriminate;
    eexists; eexists; eexists; repeat split; reflexivity.
Qed.

End Schemas.

(** ** Calls of the transport *)

Section Calls.

Variable slacker : value -> value -> value -> option string.
Variable config : value.

Lemma quiet_keeps_calls {A : Type} (m : M A) : quiet m -> keeps_calls m.
Proof. intros H h. now rewrite H. Qed.

Lemma keeps_calls_bind {A B : Type} (m : M A) (f : A -> M B) :
  keeps_calls m -> (forall a, keeps_calls (f a)) -> keeps_calls (bind m f).
Proof.
  intros Hm Hf h. unfold bind.
  specialize (Hm h). destruct (m h) as [h' [a | e |]]; simpl in *.
  - now rewrite Hf.
  - exact Hm.
  - exact Hm.
Qed.

Lemma keeps_calls_assign path k v : keeps_calls (assign path k v).
Proof.
  intros h. unfold assign.
  now destruct (Js.assign_in (buildData h) path k v).
Qed.

Lemma keeps_calls_normalize : keeps_calls normalize.
Proof.
  unfold normalize.
  apply keeps_calls_bind; [apply quiet_keeps_calls, quiet_read | intro slack].
  apply keeps_calls_bind.
  - destruct (Js.is_string slack || Js.is_array slack).
    + apply keeps_calls_bind; [apply quiet_keeps_calls, quiet_read | intro].
      apply keeps_calls_bind; [apply keeps_calls_assign | intro].
      apply keeps_calls_bind; [apply quiet_keeps_calls, quiet_read | intro].
      apply keeps_calls_assign.
    + apply quiet_keeps_calls, quiet_ret.
  - intros _.
    apply keeps_calls_bind; [apply quiet_keeps_calls, quiet_read | intro st].
    destruct (Js.is_undefined st);
      [apply keeps_calls_assign | apply quiet_keeps_calls, quiet_ret].
Qed.

Lemma keeps_calls_sends {A : Type} (m : M A) :
  keeps_calls m -> sends_at_most_once m.
Proof. intros H h. left. apply H. Qed.

Lemma sends_bind {A B : Type} (m : M A) (f : A -> M B) :
  keeps_calls m -> (forall a, sends_at_most_once (f a)) ->
  sends_at_most_once (bind m f).
Proof.
  intros Hm Hf h. unfold bind.
  specialize (Hm h). destruct (m h) as [h' [a | e |]]; simpl in *.
  - rewrite <- Hm. apply Hf.
  - now left.
  - now left.
Qed.

Lemma sends_call_slacker token channels payload :
  sends_at_most_once (call_slacker slacker token channels payload).
Proof.
  intros h. right. exists (mkCall token channels payload).
  unfold call_slacker. now destruct (slacker token channels payload).
Qed.

Lemma sends_dispatch : sends_at_most_once (dispatch slacker config).
Proof.
  unfold dispatch.
  apply sends_bind; [apply quiet_keeps_calls, quiet_render | intro].
  apply sends_bind; [apply quiet_keeps_calls, quiet_lift | intro].
  apply sends_bind; [apply quiet_keeps_calls, quiet_read | intro].
  apply sends_call_slacker.
Qed.

Lemma sends_filter_and_dispatch :
  sends_at_most_once (filter_and_dispatch slacker config).
Proof.
  unfold filter_and_dispatch.
  apply sends_bind; [apply quiet_keeps_calls, quiet_read | intro].
  apply sends_bind; [apply quiet_keeps_calls, quiet_read | intro].
  apply sends_bind; [apply quiet_keeps_calls, quiet_lift | intro listed].
  destruct (negb listed).
  - apply keeps_calls_sends, quiet_keeps_calls, quiet_ret.
  - apply sends_dispatch.
Qed.

(** X10.  Whatever the heap, a call of [_notify] leaves the calls the
    transport has received in place and adds at most one; it adds one
    only for an event that passes validation. *)
Theorem notify_sends_at_most_once h :
  calls (fst (_notify slacker config h)) = calls h
  \/ (Joi.validate SCHEMA_BUILD_DATA (buildData h) = true
      /\ exists c,
          calls (fst (_notify slacker config h)) = (calls h ++ [c])%list).
Proof.
  destruct (Joi.validate SCHEMA_BUILD_DATA (buildData h)) eqn:Hv.
  - assert (Hs : sends_at_most_once (_notify slacker config)).
    { unfold _notify.
      apply sends_bind; [apply quiet_keeps_calls, quiet_read | intro data].
      destruct (Joi.attempt data SCHEMA_BUILD_DATA _);
        try (apply keeps_calls_sends, quiet_keeps_calls, quiet_ret).
      apply sends_bind; [apply quiet_keeps_calls, quiet_read | intro].
      apply sends_bind; [apply quiet_keeps_calls, quiet_lift | intro count].
      destruct (count =? 0)%nat.
      - apply keeps_calls_sends, quiet_keeps_calls, quiet_ret.
      - apply sends_bind; [apply keeps_calls_normalize | intro].
        apply sends_filter_and_dispatch. }
    destruct (Hs h) as [E | E]; [now left | right; now split].
  - left. now rewrite (notify_rejected slacker config h Hv).
Qed.

End Calls.

(** ** Errors *)

Section Errors.

Variable slacker : value -> value -> value -> option string.
Variable config : value.

Ltac type_error_cases :=
  intros e H;
  repeat match type of H with
         | context [match ?x with _ => _ end] => destruct x
         | context [if ?b then _ else _] => destruct b
         end;
  try discriminate; injection H as <-; eexists; reflexivity.

Lemma type_errors_normal {A : Type} (a : A) : type_errors (Normal a).
Proof. intros e H. discriminate. Qed.

Lemma type_errors_get v k : type_errors (Js.get v k).
Proof. unfold Js.get. type_error_cases. Qed.

Lemma type_errors_at_path path : forall root,
  type_errors (Js.at_path root path).
Proof.
  induction path as [| p path IH]; intros root e H; cbn in H;
    [discriminate |].
  destruct (Js.get root p) as [child | e' |] eqn:E; try discriminate.
  - now apply (IH child).
  - injection H as <-. now apply (type_errors_get root p).
Qed.

Lemma type_errors_set_prop o k v : type_errors (Js.set_prop o k v).
Proof. unfold Js.set_prop. type_error_cases. Qed.

Lemma type_errors_assign_in path k v : forall root,
  type_errors (Js.assign_in root path k v).
Proof.
  induction path as [| p path IH]; intros root e H; cbn in H.
  - now apply (type_errors_set_prop root k v).
  - destruct (Js.get root p) as [child | e' |] eqn:E; try discriminate.
    + destruct (Js.assign_in child path k v) as [c | e' |] eqn:E';
        try discriminate.
      * destruct root; discriminate.
      * injection H as <-. now apply (IH child).
    + injection H as <-. now apply (type_errors_get root p).
Qed.

Lemma type_errors_keys_length v : type_errors (Js.keys_length v).
Proof. unfold Js.keys_length. type_error_cases. Qed.

Lemma type_errors_toString v : type_errors (Js.toString v).
Proof. unfold Js.toString. type_error_cases. Qed.

Lemma type_errors_index o key : type_errors (Js.index o key).
Proof.
  unfold Js.index. intros e H.
  destruct (Js.toString key) as [k | e' |] eqn:E; try discriminate.
  - now apply (type_errors_get o k).
  - injection H as <-. now apply (type_errors_toString key).
Qed.

Lemma type_errors_includes recv x : type_errors (Js.includes recv x).
Proof.
  unfold Js.includes. intros e H.
  destruct recv; try (injection H as <-; eexists; reflexivity).
  - destruct (Js.toString x) as [k | e' |] eqn:E; try discriminate.
    injection H as <-. now apply (type_errors_toString x).
  - destruct x; discriminate.
Qed.

Lemma type_errors_split recv sep : type_errors (Js.split recv sep).
Proof. unfold Js.split. type_error_cases. Qed.

Lemma type_errors_slice0 recv n : type_errors (Js.slice0 recv n).
Proof. unfold Js.slice0. type_error_cases. Qed.

Lemma type_errors_substring0 recv n : type_errors (Js.substring0 recv n).
Proof. unfold Js.substring0. type_error_cases. Qed.

Lemma type_errors_greater v n : type_errors (Js.greater v n).
Proof. unfold Js.greater. type_error_cases. Qed.

Lemma throws_ret {A : Type} (a : A) : throws_type_errors (ret a).
Proof. intros h e H. discriminate. Qed.

Lemma throws_lift {A : Type} (r : result A) :
  type_errors r -> throws_type_errors (lift r).
Proof. intros Hr h e H. now apply Hr. Qed.

Lemma throws_read path : throws_type_errors (read path).
Proof. intros h e H. now apply (type_errors_at_path path (buildData h)). Qed.

Lemma throws_assign path k v : throws_type_errors (assign path k v).
Proof.
  intros h e H. unfold assign in H.
  destruct (Js.assign_in (buildData h) path k v) eqn:E; try discriminate.
  cbn in H. injection H as <-.
  now apply (type_errors_assign_in path k v (buildData h)).
Qed.

Lemma throws_bind {A B : Type} (m : M A) (f : A -> M B) :
  throws_type_errors m -> (forall a, throws_type_errors (f a)) ->
  throws_type_errors (bind m f).
Proof.
  intros Hm Hf h e H. unfold bind in H.
  specialize (Hm h). destruct (m h) as [h' [a | e' |]]; cbn in *.
  - now apply (Hf a h').
  - injection H as <-. now apply Hm.
  - discriminate.
Qed.

Lemma throws_if {A : Type} (c : bool) (m1 m2 : M A) :
  throws_type_errors m1 -> throws_type_errors m2 ->
  throws_type_errors (if c then m1 else m2).
Proof. destruct c; auto. Qed.

Lemma throws_str (m : M value) :
  throws_type_errors m -> throws_type_errors (str m).
Proof.
  intros H. unfold str. apply throws_bind; [exact H | intro v].
  apply throws_lift, type_errors_toString.
Qed.

Ltac throws_steps :=
  repeat first
    [ apply throws_ret | apply throws_read | apply throws_assign
    | apply throws_str | apply throws_if
    | apply throws_lift;
      first [ apply type_errors_get | apply type_errors_index
            | apply type_errors_includes | apply type_errors_split
            | apply type_errors_slice0 | apply type_errors_substring0
            | apply type_errors_greater | apply type_errors_keys_length
            | apply type_errors_toString ]
    | apply throws_bind; [| intro] ].

Lemma throws_normalize : throws_type_errors normalize.
Proof. unfold normalize. throws_steps. Qed.

Lemma throws_render : throws_type_errors render.
Proof.
  unfold render, pipelineLink, truncatedSha, commitMessage, by_status.
  throws_steps.
Qed.

(** X12.  An error that leaves [_notify] is either a TypeError of the
    code itself or the error the transport threw in the one call it
    received; the validation error of [Joi.attempt] never leaves. *)
Theorem notify_error_origin h e :
  snd (_notify slacker config h) = Throw e ->
  type_error e
  \/ exists token channels payload message,
      slacker token channels payload = Some message
      /\ e = TransportError message
      /\ In (mkCall token channels payload)
            (calls (fst (_notify slacker config h))).
Proof.
  cbv beta iota delta [_notify filter_and_dispatch dispatch bind read lift
                       call_slacker ret].
  change (Js.at_path (buildData h) []) with (Normal (buildData h)).
  cbv beta iota.
  destruct (Joi.attempt (buildData h) SCHEMA_BUILD_DATA _); try discriminate.
  destruct (Js.at_path (buildData h) ["settings"]) as [settings | e' |] eqn:Es;
    cbn [fst snd]; try discriminate.
  2: { intros [= <-]. left.
       now apply (type_errors_at_path ["settings"] (buildData h)). }
  destruct (Js.keys_length settings) as [count | e' |] eqn:Ek;
    cbn [fst snd]; try discriminate.
  2: { intros [= <-]. left. now apply (type_errors_keys_length settings). }
  destruct (count =? 0)%nat; [discriminate |].
  pose proof (throws_normalize h) as Hn.
  destruct (normalize h) as [h1 [[] | e' |]]; cbn [fst snd] in *;
    try discriminate.
  2: { intros [= <-]. left. now apply Hn. }
  clear Hn.
  destruct (Js.at_path (buildData h1) ["settings"; "slack"; "statuses"])
    as [statuses | e' |] eqn:Est; cbn [fst snd]; try discriminate.
  2: { intros [= <-]. left.
       now apply (type_errors_at_path _ (buildData h1) _ Est). }
  destruct (Js.at_path (buildData h1) ["status"]) as [status | e' |] eqn:Ess;
    cbn [fst snd]; try discriminate.
  2: { intros [= <-]. left.
       now apply (type_errors_at_path _ (buildData h1) _ Ess). }
  destruct (Js.includes statuses status) as [listed | e' |] eqn:Ei;
    cbn [fst snd]; try discriminate.
  2: { intros [= <-]. left. now apply (type_errors_includes statuses status). }
  destruct (negb listed); [discriminate |].
  pose proof (throws_render h1) as Hr. pose proof (quiet_render h1) as Hq.
  destruct (render h1) as [h2 [payload | e' |]]; cbn [fst snd] in *;
    try discriminate.
  2: { intros [= <-]. left. now apply Hr. }
  subst h2. clear Hr.
  destruct (Js.get config "token") as [token | e' |] eqn:Et;
    cbn [fst snd]; try discriminate.
  2: { intros [= <-]. left. now apply (type_errors_get config "token"). }
  destruct (Js.at_path (buildData h1) ["settings"; "slack"; "channels"])
    as [channels | e' |] eqn:Ec; cbn [fst snd]; try discriminate.
  2: { intros [= <-]. left.
       now apply (type_errors_at_path _ (buildData h1) _ Ec). }
  destruct (slacker token channels payload) as [message |] eqn:Esl;
    cbn [fst snd calls]; [| discriminate].
  intros [= <-]. right. exists token, channels, payload, message.
  split; [exact Esl |]. split; [reflexivity |].
  apply in_or_app. right. now left.
Qed.

End Errors.

(** ** The event a call leaves behind *)

Section Afterwards.

Variable slacker : value -> value -> value -> option string.
Variable config : value.

Lemma forallb_store (f : string * value -> bool) k v ps :
  f (k, v) = true -> forallb f ps = true -> forallb f (Js.store k v ps) = true.
Proof.
  intros Hf. induction ps as [| [k' v'] ps IH]; cbn.
  - intros _. now rewrite Hf.
  - intros H. apply andb_prop in H. destruct H as [H1 H2].
    destruct (String.eqb k k'); cbn.
    + now rewrite Hf, H2.
    + now rewrite H1, IH.
Qed.

Lemma canonical_idem slack :
  legal_shape slack ->
  canonical_settings (canonical_settings slack) = canonical_settings slack.
Proof.
  destruct slack as [| | | | s | l | ps]; cbn; try contradiction;
    try reflexivity.
  destruct (Js.lookup "statuses" ps) eqn:E; try contradiction; cbn; intros _.
  - now rewrite lookup_store_same.
  - now rewrite E.
Qed.

Lemma canonical_legal slack :
  legal_shape slack -> legal_shape (canonical_settings slack).
Proof.
  destruct slack as [| | | | s | l | ps]; cbn; try contradiction; try exact id.
  destruct (Js.lookup "statuses" ps) eqn:E; try contradiction; cbn; intros _.
  - now rewrite lookup_store_same.
  - now rewrite E.
Qed.

Lemma canonical_valid sf :
  Joi.validate (Joi.required SCHEMA_SLACK_SETTINGS) (VObj sf) = true ->
  Joi.validate (Joi.required SCHEMA_SLACK_SETTINGS)
    (VObj (Js.store "slack" (canonical_settings (Js.lookup "slack" sf)) sf))
  = true.
Proof.
  rewrite !validate_settings_unfold, lookup_store_same.
  destruct (Js.lookup "slack" sf) as [| | | | s | l | ps]; try discriminate.
  - cbn. intros H. now rewrite H.
  - cbn [canonical_settings]. intros H.
    apply orb_true_iff in H. destruct H as [H | H]; [| discriminate].
    apply orb_true_iff in H. destruct H as [H | H]; [discriminate |].
    unfold Joi.keys, Joi.object_. rewrite check_object.
    cbn [forallb fst snd Js.lookup String.eqb Ascii.eqb Bool.eqb].
    unfold Joi.validate at 1. rewrite H. reflexivity.
  - intros H.
    apply orb_true_iff in H. destruct H as [H | H]; [| discriminate].
    apply orb_true_iff in H. destruct H as [H | H]; [| discriminate].
    cbn [canonical_settings].
    destruct (Js.is_undefined (Js.lookup "statuses" ps)) eqn:E.
    + revert H. unfold Joi.keys, Joi.object_. rewrite !check_object.
      cbn [forallb fst snd map orb]. rewrite lookup_store_same.
      rewrite !lookup_store_other by discriminate.
      rewrite !andb_true_iff. intros [(Hc & _ & Hm & _) Hk].
      rewrite Hc, Hm, (forallb_store _ "statuses" DEFAULT_STATUSES ps eq_refl Hk).
      reflexivity.
    + now rewrite H.
Qed.

Lemma normalized_valid fields sf :
  Joi.validate SCHEMA_BUILD_DATA (VObj fields) = true ->
  Js.lookup "settings" fields = VObj sf ->
  Joi.validate SCHEMA_BUILD_DATA (normalized fields sf) = true.
Proof.
  intros Hv Hs. unfold normalized.
  rewrite validate_build_data_unfold in *.
  rewrite lookup_store_same, !lookup_store_other by discriminate.
  rewrite Hs in Hv. apply andb_prop in Hv. destruct Hv as [Hv Hk].
  apply andb_prop in Hv. destruct Hv as [Hset Hrest].
  rewrite (canonical_valid sf Hset), Hrest. cbn [andb].
  now apply forallb_store.
Qed.

Lemma normalized_idem fields sf :
  legal_shape (Js.lookup "slack" sf) ->
  normalized
    (Js.store "settings"
       (VObj (Js.store "slack" (canonical_settings (Js.lookup "slack" sf)) sf))
       fields)
    (Js.store "slack" (canonical_settings (Js.lookup "slack" sf)) sf)
  = normalized fields sf.
Proof.
  intros Hsh. unfold normalized.
  now rewrite lookup_store_same, (canonical_idem _ Hsh), !store_store.
Qed.

(** X13.  An event that passes validation still passes it after the
    call: the canonical settings written into the caller's object are
    themselves a legal, structured [settings.slack]. *)
Theorem notify_keeps_event_valid data :
  Joi.validate SCHEMA_BUILD_DATA data = true ->
  Joi.validate SCHEMA_BUILD_DATA (buildData (fst (run slacker config data)))
  = true.
Proof.
  intros Hv.
  destruct (valid_build_data_shape data Hv) as [-> | [fields ->]];
    [reflexivity |].
  destruct (valid_build_data_inv fields Hv) as (sf & st & Hs & _).
  rewrite (run_accepted slacker config fields sf Hv Hs).
  now apply normalized_valid.
Qed.

(** X14.  Notifying again with the object a call left behind does what
    the first call did: the same call of the transport, if any, the same
    result, and the object stays as the first call left it. *)
Theorem notify_again data :
  run slacker config (buildData (fst (run slacker config data)))
  = run slacker config data.
Proof.
  destruct (Joi.validate SCHEMA_BUILD_DATA data) eqn:Hv.
  - destruct (valid_build_data_shape data Hv) as [-> | [fields ->]];
      [reflexivity |].
    destruct (valid_build_data_inv fields Hv) as (sf & st & Hs & Hsh & _).
    rewrite (run_accepted slacker config fields sf Hv Hs).
    unfold run at 2.
    rewrite (notify_accepted slacker config fields sf [] Hv Hs).
    pose proof (normalized_valid fields sf Hv Hs) as Hv'.
    unfold normalized in Hv' |- *. unfold run.
    rewrite (notify_accepted slacker config _ _ [] Hv'
               (lookup_store_same "settings" _ fields)).
    now rewrite (normalized_idem fields sf Hsh).
  - rewrite (notify_rejected_unchanged slacker config data Hv).
    cbn [fst buildData]. now apply notify_rejected_unchanged.
Qed.

Lemma dispatch_sent h c :
  calls (fst (dispatch slacker config h)) = (calls h ++ [c])%list ->
  render h = (h, Normal (call_payload c))
  /\ Js.get config "token" = Normal (call_token c)
  /\ Js.at_path (buildData h) ["settings"; "slack"; "channels"]
     = Normal (call_channels c).
Proof.
  assert (Hno : calls h <> (calls h ++ [c])%list).
  { intros E. apply (f_equal (@List.length call)) in E.
    rewrite length_app in E. cbn in E. lia. }
  cbv beta iota delta [dispatch bind read lift call_slacker].
  pose proof (quiet_render h) as Hq.
  destruct (render h) as [h2 [payload | e' |]]; cbn [fst snd] in *; subst h2;
    try (intros E; now elim Hno).
  destruct (Js.get config "token") as [token | e' |];
    cbn [fst snd]; try (intros E; now elim Hno).
  destruct (Js.at_path (buildData h) ["settings"; "slack"; "channels"])
    as [channels | e' |]; cbn [fst snd]; try (intros E; now elim Hno).
  destruct (slacker token channels payload); cbn [fst calls]; intros E;
    apply app_inv_head in E; injection E as <-; repeat split.
Qed.

Lemma filter_sent h c :
  calls (fst (filter_and_dispatch slacker config h)) = (calls h ++ [c])%list ->
  calls (fst (dispatch slacker config h)) = (calls h ++ [c])%list
  /\ exists statuses status,
      Js.at_path (buildData h) ["settings"; "slack"; "statuses"]
      = Normal statuses
      /\ Js.at_path (buildData h) ["status"] = Normal status
      /\ Js.includes statuses status = Normal true.
Proof.
  assert (Hno : calls h <> (calls h ++ [c])%list).
  { intros E. apply (f_equal (@List.length call)) in E.
    rewrite length_app in E. cbn in E. lia. }
  cbv beta iota delta [filter_and_dispatch bind read lift ret].
  destruct (Js.at_path (buildData h) ["settings"; "slack"; "statuses"])
    as [statuses | e' |]; cbn [fst snd]; try (intros E; now elim Hno).
  destruct (Js.at_path (buildData h) ["status"]) as [status | e' |];
    cbn [fst snd]; try (intros E; now elim Hno).
  destruct (Js.includes statuses status) as [[|] | e' |] eqn:Ei;
    cbn [fst snd negb]; try (intros E; now elim Hno).
  intros E. split; [exact E |]. exists statuses, status.
  repeat split. exact Ei.
Qed.

Lemma after_gate_sent h c :
  calls (fst ((normalize ;;; filter_and_dispatch slacker config) h))
  = (calls h ++ [c])%list ->
  sent_by config h c.
Proof.
  assert (Hno : calls h <> (calls h ++ [c])%list).
  { intros E. apply (f_equal (@List.length call)) in E.
    rewrite length_app in E. cbn in E. lia. }
  unfold bind at 1. pose proof (keeps_calls_normalize h) as Hk.
  destruct (normalize h) as [h1 [[] | e |]] eqn:En; cbn [fst] in *;
    try (rewrite Hk; intros E; now elim Hno).
  intros Hc. rewrite <- Hk in Hc.
  apply filter_sent in Hc.
  destruct Hc as (Hd & statuses & status & Hlist & Hstatus & Hin).
  apply dispatch_sent in Hd. destruct Hd as (Hr & Ht & Hch).
  exists h1, statuses, status. repeat split; assumption.
Qed.

(** X15.  Whatever the transport receives from a call of [_notify] is
    what lines 93-153 computed from the event: normalization had
    returned, the channels are those read from [settings.slack] after
    it, the token is the one of the configuration, the message is the
    rendering of the normalized event, and line 108 had found the
    status of the event in the statuses of [settings.slack].  This
    holds of lines 93-153 run on any heap, and so of [_notify]. *)
Theorem sent_call_content h c :
  (calls (fst ((normalize ;;; filter_and_dispatch slacker config) h))
   = (calls h ++ [c])%list ->
   sent_by config h c)
  /\ (calls (fst (_notify slacker config h)) = (calls h ++ [c])%list ->
      sent_by config h c).
Proof.
  split; [apply after_gate_sent |].
  assert (Hno : calls h <> (calls h ++ [c])%list).
  { intros E. apply (f_equal (@List.length call)) in E.
    rewrite length_app in E. cbn in E. lia. }
  unfold _notify, bind at 1, read at 1. cbn [Js.at_path].
  destruct (Joi.attempt (buildData h) SCHEMA_BUILD_DATA _);
    try (intros E; now elim Hno).
  unfold bind at 1, read at 1.
  destruct (Js.at_path (buildData h) ["settings"]) as [settings | e |];
    try (intros E; now elim Hno).
  unfold bind at 1, lift at 1.
  destruct (Js.keys_length settings) as [count | e |];
    try (intros E; now elim Hno).
  destruct (count =? 0)%nat; [intros E; now elim Hno |].
  apply after_gate_sent.
Qed.

End Afterwards.

(** ** Edges of rendering *)

Section RenderingEdges.

Lemma append_nil_r (s : string) : s ++ "" = s.
Proof. induction s as [| c s IH]; cbn; [reflexivity | now rewrite IH]. Qed.

Lemma length_append (a b : string) :
  String.length (a ++ b) = String.length a + String.length b.
Proof. induction a as [| c a IH]; cbn; [reflexivity | now rewrite IH]. Qed.

Lemma substring0_length_min n : forall s,
  String.length (String.substring 0 n s) = Nat.min n (String.length s).
Proof.
  induction n as [| n IH]; intros [| c s]; cbn; try reflexivity.
  now rewrite IH.
Qed.

Lemma substring0_all n : forall s,
  String.length s <= n -> String.substring 0 n s = s.
Proof.
  induction n as [| n IH]; intros [| c s] H; cbn in *; try reflexivity;
    try lia.
  rewrite IH; [reflexivity | lia].
Qed.

Lemma split_go_first_prefix sep : forall s cur,
  exists x,
    hd "" (Js.split_go sep 0 cur s) = cur ++ x
    /\ String.prefix x s = true.
Proof.
  induction s as [| c s IH]; intros cur.
  - exists "". cbn. now rewrite append_nil_r.
  - cbn [Js.split_go]. destruct (String.prefix sep (String c s)).
    + exists "". cbn [hd]. now rewrite append_nil_r.
    + destruct (IH (cur ++ String c "")) as (x & Hx & Hp).
      exists (String c x). rewrite Hx, append_assoc. split; [reflexivity |].
      cbn. destruct (ascii_dec c c) as [_ | Hne]; [exact Hp | now elim Hne].
Qed.

Lemma split_go_no_separator sep : forall s cur,
  Js.is_substring sep s = false ->
  Js.split_go sep 0 cur s = [cur ++ s].
Proof.
  induction s as [| c s IH]; intros cur H.
  - cbn. now rewrite append_nil_r.
  - cbn [Js.is_substring] in H. apply orb_false_iff in H.
    destruct H as [Hp Hrest].
    cbn [Js.split_go]. rewrite Hp, (IH _ Hrest), append_assoc. reflexivity.
Qed.

(** X16.  The pipeline link is always a prefix of the build link, and a
    build link in which "/builds" does not occur is used whole. *)
Theorem pipeline_of_is_prefix link :
  String.prefix (pipeline_of link) link = true
  /\ (Js.is_substring "/builds" link = false -> pipeline_of link = link).
Proof.
  unfold pipeline_of, Js.split_string. split.
  - destruct (split_go_first_prefix "/builds" link "") as (x & Hx & Hp).
    now rewrite Hx.
  - intros H. now rewrite (split_go_no_separator "/builds" link "" H).
Qed.

(** X18.  For a sha that is a string, the truncated sha consists of its
    first six characters, or of all of them when there are fewer. *)
Theorem truncatedSha_bounds h sha :
  Js.at_path (buildData h) ["event"; "sha"] = Normal (VStr sha) ->
  exists short,
    truncatedSha h = (h, Normal (VStr short))
    /\ String.length short = Nat.min 6 (String.length sha)
    /\ String.prefix short sha = true
    /\ (String.length sha <= 6 -> short = sha).
Proof.
  intros H. exists (String.substring 0 6 sha).
  unfold truncatedSha, bind, read, lift. rewrite H. cbn [Js.slice0].
  repeat split.
  - apply substring0_length_min.
  - apply substring0_prefix.
  - apply substring0_all.
Qed.

(** X19.  For a commit message that is a string, the message shown is
    never longer than 153 characters, and never longer than the message
    itself by more than the three of the ellipsis. *)
Theorem commitMessage_bounded h m :
  Js.at_path (buildData h) ["event"; "commit"; "message"]
  = Normal (VStr m) ->
  exists shown,
    commitMessage h = (h, Normal (VStr shown))
    /\ String.length shown <= 153
    /\ String.length shown <= String.length m + 3.
Proof.
  intros H. exists (shown_commit m).
  rewrite (commitMessage_string h m H). split; [reflexivity |].
  unfold shown_commit.
  destruct (cutOff <? String.length m)%nat eqn:E.
  - apply Nat.ltb_lt in E. rewrite length_append, substring0_length_min.
    unfold cutOff in *. cbn [String.length]. lia.
  - apply Nat.ltb_ge in E. unfold cutOff in *. lia.
Qed.

(** Rendering with the substituted values taken as they come: each is
    shown by its string conversion. *)
Lemma render_shown h link repo job st emoji color id sha m url cause
      vjob vid vurl vcause flag minimized :
  Js.at_path (buildData h) ["buildLink"] = Normal (VStr link) ->
  Js.at_path (buildData h) ["pipeline"; "scmRepo"; "name"]
  = Normal (VStr repo) ->
  Js.at_path (buildData h) ["jobName"] = Normal vjob ->
  Js.toString vjob = Normal job ->
  Js.at_path (buildData h) ["status"] = Normal (VStr st) ->
  Js.index STATUSES_MAP (VStr st) = Normal (VStr emoji) ->
  Js.index COLOR_MAP (VStr st) = Normal color ->
  Js.at_path (buildData h) ["build"; "id"] = Normal vid ->
  Js.toString vid = Normal id ->
  Js.at_path (buildData h) ["event"; "sha"] = Normal (VStr sha) ->
  Js.at_path (buildData h) ["event"; "commit"; "message"]
  = Normal (VStr m) ->
  Js.at_path (buildData h) ["event"; "commit"; "url"] = Normal vurl ->
  Js.toString vurl = Normal url ->
  Js.at_path (buildData h) ["event"; "causeMessage"] = Normal vcause ->
  Js.toString vcause = Normal cause ->
  Js.at_path (buildData h) ["settings"; "slack"; "minimized"]
  = Normal flag ->
  Js.truthy flag = minimized ->
  render h
  = (h,
     Normal
       (VObj
          [("message",
            VStr (if minimized
                  then "<" ++ pipeline_of link ++ "|" ++ repo ++ "#" ++ job
                           ++ "> *" ++ st ++ "*"
                  else "*" ++ st ++ "* " ++ emoji ++ " <"
                           ++ pipeline_of link ++ "|" ++ repo ++ " " ++ job
                           ++ ">"));
           ("attachments",
            VArr
              [if minimized
               then VObj [("fallback", VStr "");
                          ("color", color);
                          ("fields",
                           VArr [VObj [("title", VStr "Build");
                                       ("value",
                                        VStr ("<" ++ link ++ "|#" ++ id
                                                  ++ ">"));
                                       ("short", VBool true)]])]
               else VObj [("fallback", VStr "");
                          ("color", color);
                          ("title", VStr ("#" ++ id));
                          ("title_link", VStr link);
                          ("text",
                           VStr ((shown_commit m ++ " (<" ++ url ++ "|"
                                    ++ String.substring 0 6 sha ++ ">)")
                                   ++ (newline ++ cause)))]])])).
Proof.
  intros Hlink Hrepo Hjob Hjobs Hst Hemoji Hcolor Hid Hids Hsha Hm Hurl Hurls
         Hcause Hcauses Hflag Hmin.
  cbv beta iota delta [render bind str by_status truncatedSha read lift ret].
  rewrite (pipelineLink_string h link Hlink). cbv beta iota.
  rewrite Hsha. cbv beta iota. cbn [Js.slice0].
  rewrite (commitMessage_string h m Hm). cbv beta iota.
  rewrite Hflag. cbv beta iota. rewrite Hmin.
  destruct minimized;
    repeat (progress (rewrite ?Hrepo, ?Hjob, ?Hjobs, ?Hst, ?Hemoji, ?Hcolor,
                        ?Hid, ?Hids, ?Hlink, ?Hurl, ?Hurls, ?Hcause, ?Hcauses;
                      cbv beta iota;
                      change (Js.toString (VStr ?s)) with (Normal s)));
    reflexivity.
Qed.

(** X20.  An event without the optional [jobName] is rendered all the
    same, with the word "undefined" where the job name goes in the
    header. *)
Theorem render_without_jobName h link repo st emoji color id sha m url cause
        flag minimized :
  Js.at_path (buildData h) ["jobName"] = Normal VUndefined ->
  Js.at_path (buildData h) ["buildLink"] = Normal (VStr link) ->
  Js.at_path (buildData h) ["pipeline"; "scmRepo"; "name"]
  = Normal (VStr repo) ->
  Js.at_path (buildData h) ["status"] = Normal (VStr st) ->
  Js.index STATUSES_MAP (VStr st) = Normal (VStr emoji) ->
  Js.index COLOR_MAP (VStr st) = Normal color ->
  Js.at_path (buildData h) ["build"; "id"] = Normal (VNum id) ->
  Js.is_safe_integer id = true ->
  Js.at_path (buildData h) ["event"; "sha"] = Normal (VStr sha) ->
  Js.at_path (buildData h) ["event"; "commit"; "message"]
  = Normal (VStr m) ->
  Js.at_path (buildData h) ["event"; "commit"; "url"] = Normal (VStr url) ->
  Js.at_path (buildData h) ["event"; "causeMessage"]
  = Normal (VStr cause) ->
  Js.at_path (buildData h) ["settings"; "slack"; "minimized"]
  = Normal flag ->
  Js.truthy flag = minimized ->
  exists payload,
    render h = (h, Normal payload)
    /\ Js.get payload "message"
       = Normal
           (VStr (if minimized
                  then "<" ++ pipeline_of link ++ "|" ++ repo
                           ++ "#undefined> *" ++ st ++ "*"
                  else "*" ++ st ++ "* " ++ emoji ++ " <"
                           ++ pipeline_of link ++ "|" ++ repo
                           ++ " undefined>")).
Proof.
  intros Hjob Hlink Hrepo Hst Hemoji Hcolor Hid Hsafe Hsha Hm Hurl Hcause
         Hflag Hmin.
  eexists. split.
  - apply (render_shown h link repo "undefined" st emoji color
             (Js.decimal id) sha m url cause VUndefined (VNum id) (VStr url)
             (VStr cause) flag minimized); try assumption; try reflexivity.
    cbn. now rewrite Hsafe.
  - cbn. now destruct minimized.
Qed.

(** X21.  In the full rendering, a commit without [url] and an event
    without [causeMessage] are rendered all the same, with the word
    "undefined" in their places in the text of the attachment. *)
Theorem render_without_url_and_cause h link repo job st emoji color id sha m
        flag :
  Js.at_path (buildData h) ["event"; "commit"; "url"] = Normal VUndefined ->
  Js.at_path (buildData h) ["event"; "causeMessage"] = Normal VUndefined ->
  Js.at_path (buildData h) ["buildLink"] = Normal (VStr link) ->
  Js.at_path (buildData h) ["pipeline"; "scmRepo"; "name"]
  = Normal (VStr repo) ->
  Js.at_path (buildData h) ["jobName"] = Normal (VStr job) ->
  Js.at_path (buildData h) ["status"] = Normal (VStr st) ->
  Js.index STATUSES_MAP (VStr st) = Normal (VStr emoji) ->
  Js.index COLOR_MAP (VStr st) = Normal color ->
  Js.at_path (buildData h) ["build"; "id"] = Normal (VNum id) ->
  Js.is_safe_integer id = true ->
  Js.at_path (buildData h) ["event"; "sha"] = Normal (VStr sha) ->
  Js.at_path (buildData h) ["event"; "commit"; "message"]
  = Normal (VStr m) ->
  Js.at_path (buildData h) ["settings"; "slack"; "minimized"]
  = Normal flag ->
  Js.truthy flag = false ->
  exists payload attachment,
    render h = (h, Normal payload)
    /\ Js.get payload "attachments" = Normal (VArr [attachment])
    /\ Js.get attachment "text"
       = Normal
           (VStr ((shown_commit m ++ " (<undefined|"
                     ++ String.substring 0 6 sha ++ ">)")
                    ++ (newline ++ "undefined"))).
Proof.
  intros Hurl Hcause Hlink Hrepo Hjob Hst Hemoji Hcolor Hid Hsafe Hsha Hm
         Hflag Hmin.
  eexists. eexists. split; [| split].
  - apply (render_shown h link repo job st emoji color
             (Js.decimal id) sha m "undefined" "undefined" (VStr job)
             (VNum id) VUndefined VUndefined flag false);
      try assumption; try reflexivity.
    cbn. now rewrite Hsafe.
  - reflexivity.
  - reflexivity.
Qed.

End RenderingEdges.

(** ** The repository name *)

Section RepositoryName.

Variable slacker : value -> value -> value -> option string.
Variable config : value.

(** X23.  An event whose [pipeline] is an object without [scmRepo], or
    with an [scmRepo] object whose [name] is absent, is not a string or
    is the empty string, is dropped at the validation gate. *)
Theorem missing_repository_name_is_dropped fields pf cs :
  Js.lookup "pipeline" fields = VObj pf ->
  Js.lookup "scmRepo" pf = VUndefined
  \/ (exists rf,
         Js.lookup "scmRepo" pf = VObj rf
         /\ forall name, Js.lookup "name" rf = VStr name -> name = "") ->
  _notify slacker config (mkHeap (VObj fields) cs)
  = (mkHeap (VObj fields) cs, Normal tt).
Proof.
  intros Hp Hrepo. apply notify_rejected. cbn [buildData].
  rewrite validate_build_data_unfold.
  assert (E : Joi.validate (Joi.required SCHEMA_PIPELINE_DATA)
                           (Js.lookup "pipeline" fields) = false).
  { rewrite Hp. cbn. destruct Hrepo as [-> | (rf & -> & Hname)];
      [reflexivity |].
    cbn.
    destruct (Js.lookup "name" rf) as [| | | | name | |]; try reflexivity.
    now rewrite (Hname name eq_refl). }
  rewrite E. now rewrite !andb_false_r.
Qed.

End RepositoryName.

(** ** The properties above, on the example events *)

Lemma notify_without_slack_settings_witness :
  Js.lookup "settings" other_plugin_fields = VObj other_plugin_settings
  /\ Js.lookup "slack" other_plugin_settings = VUndefined
  /\ _notify quiet_transport some_config (mkHeap (VObj other_plugin_fields) [])
     = (mkHeap (VObj other_plugin_fields) [], Normal tt).
Proof.
  split; [reflexivity |]. split; [reflexivity |].
  apply (notify_without_slack_settings quiet_transport some_config
           other_plugin_fields other_plugin_settings []); reflexivity.
Defined.

Lemma settings_gate_never_fires_witness :
  Js.keys_length (Js.lookup "settings" [("settings", VObj []);
                                        ("status", VStr "FAILURE")])
  = Normal 0
  /\ _notify quiet_transport some_config
             (mkHeap (VObj [("settings", VObj []);
                            ("status", VStr "FAILURE")]) [])
     = (mkHeap (VObj [("settings", VObj []); ("status", VStr "FAILURE")]) [],
        Normal tt).
Proof.
  split; [reflexivity |].
  apply (settings_gate_never_fires quiet_transport some_config
           [("settings", VObj []); ("status", VStr "FAILURE")] []).
  reflexivity.
Defined.

Lemma undeclared_key_is_dropped_witness :
  In ("buildId", VNum 1234) fields_with_buildId
  /\ ~ In "buildId" ["settings"; "status"; "pipeline"; "jobName"; "build";
                     "event"; "buildLink"]
  /\ _notify quiet_transport some_config (mkHeap (VObj fields_with_buildId) [])
     = (mkHeap (VObj fields_with_buildId) [], Normal tt).
Proof.
  assert (Hin : In ("buildId", VNum 1234) fields_with_buildId).
  { unfold fields_with_buildId. apply in_or_app. right. now left. }
  assert (Hk : ~ In "buildId" ["settings"; "status"; "pipeline"; "jobName";
                               "build"; "event"; "buildLink"]).
  { cbn. intros H.
    repeat (destruct H as [H | H]; [discriminate H |]). exact H. }
  split; [exact Hin |]. split; [exact Hk |].
  exact (undeclared_key_is_dropped quiet_transport some_config
           fields_with_buildId [] "buildId" (VNum 1234) Hin Hk).
Defined.

Lemma unlisted_status_is_dropped_witness :
  (forall st, Js.lookup "status" created_fields = VStr st ->
              ~ In st ["SUCCESS"; "FAILURE"; "ABORTED"; "RUNNING"; "QUEUED"])
  /\ _notify quiet_transport some_config (mkHeap (VObj created_fields) [])
     = (mkHeap (VObj created_fields) [], Normal tt).
Proof.
  assert (Hst : forall st, Js.lookup "status" created_fields = VStr st ->
                  ~ In st ["SUCCESS"; "FAILURE"; "ABORTED"; "RUNNING";
                           "QUEUED"]).
  { cbn. intros st [= <-] H.
    repeat (destruct H as [H | H]; [discriminate H |]). exact H. }
  split; [exact Hst |].
  exact (unlisted_status_is_dropped quiet_transport some_config
           created_fields [] Hst).
Defined.

Lemma settings_of_other_plugins_witness :
  "email" <> "slack"
  /\ Joi.validate (Joi.required SCHEMA_SLACK_SETTINGS)
       (VObj (Js.store "email" (VStr "dev@example.com")
                       [("slack", VStr "#general")]))
     = Joi.validate (Joi.required SCHEMA_SLACK_SETTINGS)
         (VObj [("slack", VStr "#general")]).
Proof.
  assert (Hk : "email" <> "slack") by discriminate.
  split; [exact Hk |].
  exact (settings_of_other_plugins [("slack", VStr "#general")] "email"
           (VStr "dev@example.com") Hk).
Defined.

Lemma undeclared_slack_key_is_dropped_witness :
  Js.lookup "settings" misspelt_fields = VObj misspelt_settings
  /\ Js.lookup "slack" misspelt_settings = VObj misspelt_slack
  /\ In ("channel", VStr "#general") misspelt_slack
  /\ ~ In "channel" ["channels"; "statuses"; "minimized"]
  /\ _notify quiet_transport some_config (mkHeap (VObj misspelt_fields) [])
     = (mkHeap (VObj misspelt_fields) [], Normal tt).
Proof.
  assert (Hin : In ("channel", VStr "#general") misspelt_slack) by now left.
  assert (Hk : ~ In "channel" ["channels"; "statuses"; "minimized"]).
  { cbn. intros H.
    repeat (destruct H as [H | H]; [discriminate H |]). exact H. }
  split; [reflexivity |]. split; [reflexivity |].
  split; [exact Hin |]. split; [exact Hk |].
  exact (undeclared_slack_key_is_dropped quiet_transport some_config
           misspelt_fields misspelt_settings misspelt_slack []
           "channel" (VStr "#general") eq_refl eq_refl Hin Hk).
Defined.

Lemma status_tables_cover_witness :
  Joi.check SCHEMA_STATUS (VStr "ABORTED") = true
  /\ exists st color emoji,
      VStr "ABORTED" = VStr st
      /\ Js.index COLOR_MAP (VStr "ABORTED") = Normal (VStr color)
      /\ Js.index STATUSES_MAP (VStr "ABORTED") = Normal (VStr emoji).
Proof.
  split; [reflexivity |].
  apply (status_tables_cover (VStr "ABORTED")). reflexivity.
Defined.

Lemma notify_dispatches_once_witness :
  Joi.validate SCHEMA_BUILD_DATA (VObj failure_fields) = true
  /\ Js.includes (VArr [VStr "FAILURE"]) (VStr "FAILURE") = Normal true
  /\ render (after_normalize (VObj failure_fields))
     = (after_normalize (VObj failure_fields), Normal failure_payload)
  /\ Js.get some_config "token" = Normal (VStr "xoxb-token")
  /\ run quiet_transport some_config (VObj failure_fields)
     = (mkHeap (buildData (after_normalize (VObj failure_fields)))
               [failure_call],
        Normal tt).
Proof.
  split; [reflexivity |]. split; [reflexivity |]. split; [reflexivity |].
  split; [reflexivity |].
  apply (notify_dispatches_once quiet_transport some_config failure_fields
           (VArr [VStr "FAILURE"]) (VStr "FAILURE") failure_payload
           (VStr "xoxb-token") (VArr [VStr "#general"])); reflexivity.
Defined.

Lemma notify_error_origin_witness :
  snd (_notify quiet_transport some_config
               (mkHeap failure_without_commit []))
  = Throw (TypeError "sha")
  /\ (type_error (TypeError "sha")
      \/ exists token channels payload message,
          quiet_transport token channels payload = Some message
          /\ TypeError "sha" = TransportError message
          /\ In (mkCall token channels payload)
                (calls (fst (_notify quiet_transport some_config
                                     (mkHeap failure_without_commit []))))).
Proof.
  split; [reflexivity |].
  apply (notify_error_origin quiet_transport some_config
           (mkHeap failure_without_commit []) (TypeError "sha")).
  reflexivity.
Defined.

Lemma notify_keeps_event_valid_witness :
  Joi.validate SCHEMA_BUILD_DATA failure_event = true
  /\ Joi.validate SCHEMA_BUILD_DATA
       (buildData (fst (run quiet_transport some_config failure_event)))
     = true.
Proof.
  split; [reflexivity |].
  apply (notify_keeps_event_valid quiet_transport some_config failure_event).
  reflexivity.
Defined.

Lemma sent_call_content_witness :
  calls (fst (_notify quiet_transport some_config (mkHeap failure_event [])))
  = (calls (mkHeap failure_event []) ++ [failure_call])%list
  /\ sent_by some_config (mkHeap failure_event []) failure_call.
Proof.
  assert (H : calls (fst (_notify quiet_transport some_config
                                  (mkHeap failure_event [])))
              = (calls (mkHeap failure_event []) ++ [failure_call])%list)
    by reflexivity.
  split; [exact H |].
  exact (proj2 (sent_call_content quiet_transport some_config
                  (mkHeap failure_event []) failure_call) H).
Defined.

Lemma pipeline_of_prefix_witness :
  (forall a b,
      "https://cd.screwdriver.cd/pipelines/12" ++ "/builds" ++ "/1234"
      = a ++ "/builds" ++ b ->
      String.length "https://cd.screwdriver.cd/pipelines/12"
      <= String.length a)
  /\ pipeline_of "https://cd.screwdriver.cd/pipelines/12/builds/1234"
     = "https://cd.screwdriver.cd/pipelines/12".
Proof.
  assert (H : forall a b,
             "https://cd.screwdriver.cd/pipelines/12" ++ "/builds" ++ "/1234"
             = a ++ "/builds" ++ b ->
             String.length "https://cd.screwdriver.cd/pipelines/12"
             <= String.length a).
  { intros a b E. cbn in E.
    do 38 (destruct a as [| ? a];
           [cbn in E; discriminate E | cbn in E; injection E as _ E]).
    cbn. lia. }
  split; [exact H |].
  exact (pipeline_of_prefix "https://cd.screwdriver.cd/pipelines/12" "/1234" H).
Defined.

Lemma truncatedSha_bounds_witness :
  Js.at_path (buildData (mkHeap failure_event [])) ["event"; "sha"]
  = Normal (VStr "1234567890abcdeffedcba098765432100000000")
  /\ exists short,
      truncatedSha (mkHeap failure_event [])
      = (mkHeap failure_event [], Normal (VStr short))
      /\ String.length short
         = Nat.min 6 (String.length "1234567890abcdeffedcba098765432100000000")
      /\ String.prefix short "1234567890abcdeffedcba098765432100000000" = true
      /\ (String.length "1234567890abcdeffedcba098765432100000000" <= 6 ->
          short = "1234567890abcdeffedcba098765432100000000").
Proof.
  split; [reflexivity |].
  apply (truncatedSha_bounds (mkHeap failure_event [])
           "1234567890abcdeffedcba098765432100000000").
  reflexivity.
Defined.

Lemma commitMessage_bounded_witness :
  Js.at_path (buildData (mkHeap long_message_event []))
             ["event"; "commit"; "message"]
  = Normal (VStr long_message)
  /\ exists shown,
      commitMessage (mkHeap long_message_event [])
      = (mkHeap long_message_event [], Normal (VStr shown))
      /\ String.length shown <= 153
      /\ String.length shown <= String.length long_message + 3.
Proof.
  split; [reflexivity |].
  apply (commitMessage_bounded (mkHeap long_message_event []) long_message).
  reflexivity.
Defined.

Lemma render_without_jobName_witness :
  Js.at_path (buildData (after_normalize failure_without_jobName)) ["jobName"]
  = Normal VUndefined
  /\ exists payload,
      render (after_normalize failure_without_jobName)
      = (after_normalize failure_without_jobName, Normal payload)
      /\ Js.get payload "message"
         = Normal
             (VStr ("*FAILURE* :umbrella: <"
                      ++ pipeline_of
                           "https://cd.screwdriver.cd/pipelines/12/builds/1234"
                      ++ "|screwdriver-cd/ui undefined>")).
Proof.
  split; [reflexivity |].
  apply (render_without_jobName (after_normalize failure_without_jobName)
           "https://cd.screwdriver.cd/pipelines/12/builds/1234"
           "screwdriver-cd/ui" "FAILURE" ":umbrella:" (VStr "danger") 1234
           "1234567890abcdeffedcba098765432100000000" "Fix the build"
           "https://github.com/screwdriver-cd/ui/commit/12"
           "Merged by batman" (VBool false) false); reflexivity.
Defined.

Lemma render_without_url_and_cause_witness :
  Js.at_path (buildData (after_normalize failure_with_bare_commit))
             ["event"; "commit"; "url"]
  = Normal VUndefined
  /\ Js.at_path (buildData (after_normalize failure_with_bare_commit))
                ["event"; "causeMessage"]
     = Normal VUndefined
  /\ exists payload attachment,
      render (after_normalize failure_with_bare_commit)
      = (after_normalize failure_with_bare_commit, Normal payload)
      /\ Js.get payload "attachments" = Normal (VArr [attachment])
      /\ Js.get attachment "text"
         = Normal
             (VStr ((shown_commit "Fix the build" ++ " (<undefined|"
                       ++ String.substring
                            0 6 "1234567890abcdeffedcba098765432100000000"
                       ++ ">)")
                      ++ (newline ++ "undefined"))).
Proof.
  split; [reflexivity |]. split; [reflexivity |].
  apply (render_without_url_and_cause
           (after_normalize failure_with_bare_commit)
           "https://cd.screwdriver.cd/pipelines/12/builds/1234"
           "screwdriver-cd/ui" "publish" "FAILURE" ":umbrella:" (VStr "danger")
           1234 "1234567890abcdeffedcba098765432100000000" "Fix the build"
           (VBool false)); reflexivity.
Defined.

Lemma missing_required_field_is_dropped_witness :
  (Js.lookup "settings" [("status", VStr "FAILURE")] = VUndefined
   \/ Js.lookup "status" [("status", VStr "FAILURE")] = VUndefined
   \/ Js.lookup "pipeline" [("status", VStr "FAILURE")] = VUndefined)
  /\ _notify quiet_transport some_config
             (mkHeap (VObj [("status", VStr "FAILURE")]) [])
     = (mkHeap (VObj [("status", VStr "FAILURE")]) [], Normal tt).
Proof.
  assert (H : Js.lookup "settings" [("status", VStr "FAILURE")] = VUndefined
              \/ Js.lookup "status" [("status", VStr "FAILURE")] = VUndefined
              \/ Js.lookup "pipeline" [("status", VStr "FAILURE")]
                 = VUndefined) by now left.
  split; [exact H |].
  exact (missing_required_field_is_dropped quiet_transport some_config
           [("status", VStr "FAILURE")] [] H).
Defined.

Lemma missing_repository_name_is_dropped_witness :
  Js.lookup "pipeline" nameless_fields = VObj nameless_pipeline
  /\ (Js.lookup "scmRepo" nameless_pipeline = VUndefined
      \/ (exists rf,
             Js.lookup "scmRepo" nameless_pipeline = VObj rf
             /\ forall name, Js.lookup "name" rf = VStr name -> name = ""))
  /\ _notify quiet_transport some_config (mkHeap (VObj nameless_fields) [])
     = (mkHeap (VObj nameless_fields) [], Normal tt).
Proof.
  assert (H : Js.lookup "scmRepo" nameless_pipeline = VUndefined
              \/ (exists rf,
                     Js.lookup "scmRepo" nameless_pipeline = VObj rf
                     /\ forall name,
                          Js.lookup "name" rf = VStr name -> name = "")).
  { right. exists nameless_repository. split; [reflexivity |].
    cbn. intros name E. discriminate E. }
  split; [reflexivity |]. split; [exact H |].
  exact (missing_repository_name_is_dropped quiet_transport some_config
           nameless_fields nameless_pipeline [] eq_refl H).
Defined.

(** ** Values that are no event *)

Section NoEvent.

Variable slacker : value -> value -> value -> option string.
Variable config : value.

(** X24.  A value that is neither an object, nor a string, nor
    [undefined] (a list, a number, a boolean, [null]) is dropped at the
    validation gate: the call returns normally and the transport is not
    called. *)
Theorem non_object_is_dropped data cs :
  data <> VUndefined ->
  (forall fields, data <> VObj fields) ->
  (forall text, data <> VStr text) ->
  _notify slacker config (mkHeap data cs) = (mkHeap data cs, Normal tt).
Proof.
  intros Hu Ho _. apply notify_rejected. cbn [buildData].
  destruct (Joi.validate SCHEMA_BUILD_DATA data) eqn:Hv; [| reflexivity].
  destruct (valid_build_data_shape data Hv) as [-> | [fields ->]].
  - now elim Hu.
  - now elim (Ho fields).
Qed.

End NoEvent.

Lemma non_object_is_dropped_witness :
  VArr [VStr "this"; VStr "is"; VStr "wrong"] <> VUndefined
  /\ (forall fields, VArr [VStr "this"; VStr "is"; VStr "wrong"] <> VObj fields)
  /\ (forall text, VArr [VStr "this"; VStr "is"; VStr "wrong"] <> VStr text)
  /\ _notify quiet_transport some_config
             (mkHeap (VArr [VStr "this"; VStr "is"; VStr "wrong"]) [])
     = (mkHeap (VArr [VStr "this"; VStr "is"; VStr "wrong"]) [], Normal tt).
Proof.
  assert (Hu : VArr [VStr "this"; VStr "is"; VStr "wrong"] <> VUndefined)
    by discriminate.
  assert (Ho : forall fields,
             VArr [VStr "this"; VStr "is"; VStr "wrong"] <> VObj fields)
    by (intros fields; discriminate).
  assert (Hs : forall text,
             VArr [VStr "this"; VStr "is"; VStr "wrong"] <> VStr text)
    by (intros text; discriminate).
  split; [exact Hu |]. split; [exact Ho |]. split; [exact Hs |].
  exact (non_object_is_dropped quiet_transport some_config
           (VArr [VStr "this"; VStr "is"; VStr "wrong"]) [] Hu Ho Hs).
Defined.

Section RenderedBody.

Lemma bind_normal_inv {A B : Type} (m : M A) (f : A -> M B) h h' b :
  bind m f h = (h', Normal b) ->
  exists h1 a, m h = (h1, Normal a) /\ f a h1 = (h', Normal b).
Proof.
  unfold bind. destruct (m h) as [h1 [a | e |]]; try discriminate.
  intros H. now exists h1, a.
Qed.

Lemma quiet_result {A : Type} (m : M A) h h1 r :
  quiet m -> m h = (h1, r) -> h1 = h.
Proof. intros Hq E. specialize (Hq h). rewrite E in Hq. exact Hq. Qed.

Tactic Notation "invert_bind" hyp(H) "as" ident(h1) ident(a) ident(E) :=
  apply bind_normal_inv in H; destruct H as (h1 & a & E & H).

(** C6.  Whenever rendering returns in the full format for an event
    whose commit message is a string [m], the text of the attachment
    starts with the first 150 characters of [m] followed by "..." when
    [m] is longer than 150 characters, and with [m] unchanged when it
    has at most 150; the link to the commit, a newline and the cause
    message follow. *)
Theorem rendered_body_cut h h' payload m flag :
  Js.at_path (buildData h) ["event"; "commit"; "message"] = Normal (VStr m) ->
  Js.at_path (buildData h) ["settings"; "slack"; "minimized"] = Normal flag ->
  Js.truthy flag = false ->
  render h = (h', Normal payload) ->
  cutOff = 150
  /\ exists body url short cause attachment,
      Js.get payload "attachments" = Normal (VArr [attachment])
      /\ Js.get attachment "text"
         = Normal (VStr ((body ++ " (<" ++ url ++ "|" ++ short ++ ">)")
                           ++ (newline ++ cause)))
      /\ (cutOff < String.length m ->
          body = String.substring 0 cutOff m ++ "..."
          /\ String.length (String.substring 0 cutOff m) = cutOff
          /\ String.prefix (String.substring 0 cutOff m) m = true)
      /\ (String.length m <= cutOff -> body = m).
Proof.
  intros Hm Hflag Hfalse Hr. split; [reflexivity |].
  unfold render in Hr.
  invert_bind Hr as h0 link E.
  apply (quiet_result _ _ _ _ quiet_pipelineLink) in E. subst h0.
  invert_bind Hr as h0 sha E.
  apply (quiet_result _ _ _ _ quiet_truncatedSha) in E. subst h0.
  invert_bind Hr as h0 shown E.
  rewrite (commitMessage_string h m Hm) in E. injection E as <- <-.
  invert_bind Hr as h0 isMinimized E.
  unfold read in E. rewrite Hflag in E. injection E as <- <-.
  rewrite Hfalse in Hr.
  invert_bind Hr as h0 message E. clear E.
  invert_bind Hr as h1 attachments E.
  unfold ret in Hr. injection Hr as <- <-.
  invert_bind E as h2 color E0. clear E0.
  invert_bind E as h3 id E0. clear E0.
  invert_bind E as h4 buildLink E0. clear E0.
  invert_bind E as h5 body E0.
  unfold str, bind, ret, lift in E0. cbn [Js.toString] in E0.
  injection E0 as <- <-.
  invert_bind E as h5 url E0. clear E0.
  invert_bind E as h6 short E0. clear E0.
  invert_bind E as h7 cause E0. clear E0.
  unfold ret in E. injection E as <- <-.
  eexists (shown_commit m), url, short, cause, _.
  split; [reflexivity |]. split; [reflexivity |].
  unfold shown_commit. split.
  - intros Hlong. apply Nat.ltb_lt in Hlong. rewrite Hlong. repeat split.
    + apply substring0_length. apply Nat.ltb_lt in Hlong. lia.
    + apply substring0_prefix.
  - intros Hshort. apply Nat.ltb_ge in Hshort. now rewrite Hshort.
Qed.
End RenderedBody.

Lemma rendered_body_cut_witness :
  Js.at_path (buildData (after_normalize long_message_event))
             ["event"; "commit"; "message"]
  = Normal (VStr long_message)
  /\ Js.at_path (buildData (after_normalize long_message_event))
                ["settings"; "slack"; "minimized"]
     = Normal (VBool false)
  /\ render (after_normalize long_message_event)
     = (after_normalize long_message_event, Normal long_message_payload)
  /\ cutOff < String.length long_message
  /\ exists body url short cause attachment,
      Js.get long_message_payload "attachments" = Normal (VArr [attachment])
      /\ Js.get attachment "text"
         = Normal (VStr ((body ++ " (<" ++ url ++ "|" ++ short ++ ">)")
                           ++ (newline ++ cause)))
      /\ (cutOff < String.length long_message ->
          body = String.substring 0 cutOff long_message ++ "..."
          /\ String.length (String.substring 0 cutOff long_message) = cutOff
          /\ String.prefix (String.substring 0 cutOff long_message)
                           long_message
             = true)
      /\ (String.length long_message <= cutOff -> body = long_message).
Proof.
  split; [reflexivity |]. split; [reflexivity |]. split; [reflexivity |].
  split; [vm_compute; lia |].
  apply (rendered_body_cut (after_normalize long_message_event)
           (after_normalize long_message_event) long_message_payload
           long_message (VBool false)); reflexivity.
Defined.


(** ** Rendering without the commit *)

(** C8.  The event [minimized_without_commit] passes validation, its
    status is listed and its minimized flag is [true], so it reaches
    rendering; there line 112 reads [sha] from the absent [event]
    before the format is chosen, and rendering throws: there is no
    header and no attachment, although the minimized format uses
    nothing of the commit. *)
Theorem render_throws_without_commit :
  Joi.validate SCHEMA_BUILD_DATA minimized_without_commit = true
  /\ Js.at_path (buildData (after_normalize minimized_without_commit))
                ["settings"; "slack"; "statuses"]
     = Normal (VArr [VStr "SUCCESS"])
  /\ Js.at_path (buildData (after_normalize minimized_without_commit))
                ["status"]
     = Normal (VStr "SUCCESS")
  /\ Js.includes (VArr [VStr "SUCCESS"]) (VStr "SUCCESS") = Normal true
  /\ Js.at_path (buildData (after_normalize minimized_without_commit))
                ["settings"; "slack"; "minimized"]
     = Normal (VBool true)
  /\ render (after_normalize minimized_without_commit)
     = (after_normalize minimized_without_commit, Throw (TypeError "sha")).
Proof. repeat split. Qed.
